(** * Morpho markets relay: fetch, enrich, transform, serve

    A shallow embedding of the two TypeScript modules of the relay:

    - [morphoMarkets.ts]: the GraphQL fetcher ([saveRawResponse],
      [handleGraphQLError], [fetchMorphoMarketsAPI]);
    - the Express server module: [buildMarketParams], [buildMarketStruct],
      [getBorrowRateFromContract], [transformMarketData] and the
      [GET /markets] route.

    JavaScript numbers that the code computes with (asset amounts, prices,
    decimals, fees) are IEEE 754 binary64 values, modelled by Rocq's primitive
    floats.  HTTP status codes and the page size are integers, modelled in [Z].
    Exceptions, the outbound calls and the diagnostic file write are modelled
    by a small exception-and-trace monad [IO]; everything the program obtains
    from outside (the platform's built-ins and the two remote services) is a
    field of the record [World]. *)

From Stdlib Require Import ZArith NArith String Ascii List Bool Lia.
From Stdlib Require Import Floats Uint63 DecimalString.
Import ListNotations.

Set Warnings "-register-all,-inexact-float".

Local Open Scope string_scope.
Local Open Scope Z_scope.

(** ** JavaScript values *)

(** A JavaScript number. *)
Definition number : Set := float.

(** The values [JSON.parse] can produce.  [undefined] is not one of them: a
    property that is absent is modelled by [None] in an [option JSValue]. *)
Inductive JSValue : Type :=
| JNull
| JBool (b : bool)
| JNum (x : number)
| JStr (s : string)
| JArr (elems : list JSValue)
| JObj (fields : list (string * JSValue)).

Definition nonempty (s : string) : bool :=
  match s with
  | EmptyString => false
  | String _ _ => true
  end.

(** ToBoolean on numbers: [0], [-0] and [NaN] are falsy. *)
Definition number_truthy (x : number) : bool :=
  negb (PrimFloat.eqb x 0%float || PrimFloat.is_nan x).

(** ToBoolean. *)
Definition truthy (v : JSValue) : bool :=
  match v with
  | JNull => false
  | JBool b => b
  | JNum x => number_truthy x
  | JStr s => nonempty s
  | JArr _ => true
  | JObj _ => true
  end.

(** ToBoolean of a possibly [undefined] value. *)
Definition truthy_opt (v : option JSValue) : bool :=
  match v with
  | Some x => truthy x
  | None => false
  end.

Fixpoint assoc (k : string) (fields : list (string * JSValue)) : option JSValue :=
  match fields with
  | [] => None
  | (k', v) :: rest => if String.eqb k k' then Some v else assoc k rest
  end.

(** [v.k] for a value [v] that is neither [null] nor [undefined].  The keys
    read by the program ([data], [markets], [items] and the field names of a
    market) are own properties of objects only. *)
Definition prop (v : JSValue) (k : string) : option JSValue :=
  match v with
  | JObj fields => assoc k fields
  | _ => None
  end.

(** [v?.k] *)
Definition opt_prop (v : option JSValue) (k : string) : option JSValue :=
  match v with
  | None => None
  | Some JNull => None
  | Some x => prop x k
  end.

(** ** Decimal rendering of integers *)

(** [String(n)] for a JavaScript number holding the integer [n]. *)
Definition string_of_Z (n : Z) : string :=
  NilZero.string_of_int (Z.to_int n).

(** [BigNumber.prototype.toString]: the decimal digits of an unsigned integer. *)
Definition BigNumber_toString (n : N) : string :=
  NilZero.string_of_uint (N.to_uint n).

(** The JavaScript number holding a small non-negative integer. *)
Definition number_of_Z (n : Z) : number :=
  PrimFloat.of_uint63 (Uint63.of_Z n).

(** ** Data model of [morphoMarkets.ts] *)

Record MarketChainInfo : Type := {
  chain_network : string
}.

(** [chain] is read with [?.] by the transformer, so it may be absent. *)
Record MarketLoanAsset : Type := {
  loan_address : string;
  loan_decimals : number;
  loan_symbol : string;
  loan_priceUsd : string;
  chain : option MarketChainInfo
}.

(** The declared interface of [collateralAsset] has the single field
    [address], and the query document selects only [address]; the transformer
    nevertheless reads [collateralAsset.symbol].  The field is therefore
    optional here: [None] is JavaScript's [undefined]. *)
Record MarketCollateralAsset : Type := {
  collateral_address : string;
  collateral_symbol : option string
}.

Record RewardAssetInfo : Type := {
  reward_decimals : number;
  reward_priceUsd : string
}.

Record MarketRewardsInfo : Type := {
  reward_yearlySupplyTokens : string;
  asset : RewardAssetInfo
}.

Record MarketState : Type := {
  price : string;
  fee : number;
  supplyAssets : string;
  borrowAssets : string;
  supplyShares : string;
  borrowShares : string;
  timestamp : number;
  rewards : option (list MarketRewardsInfo)
}.

(** [collateralAsset] is [None] when the market has no collateral asset
    ([null] in the payload). *)
Record FetchedMorphoMarket : Type := {
  loanAsset : MarketLoanAsset;
  uniqueKey : string;
  collateralAsset : option MarketCollateralAsset;
  oracleAddress : string;
  irmAddress : string;
  lltv : string;
  state : MarketState
}.

Record MarketFilters : Type := {
  loanAssetAddress_in : option string;
  whitelisted : option bool
}.

Record FetchMarketsVariables : Type := {
  where_ : option MarketFilters;
  first : option Z;
  orderBy : option string
}.

(** The object literal [{}]. *)
Definition empty_variables : FetchMarketsVariables :=
  {| where_ := None; first := None; orderBy := None |}.

Definition set_where (f : MarketFilters) (v : FetchMarketsVariables) :=
  {| where_ := Some f; first := first v; orderBy := orderBy v |}.

Definition set_first (n : Z) (v : FetchMarketsVariables) :=
  {| where_ := where_ v; first := Some n; orderBy := orderBy v |}.

Definition set_orderBy (o : string) (v : FetchMarketsVariables) :=
  {| where_ := where_ v; first := first v; orderBy := Some o |}.

(** ** Data model of the server module *)

Record MarketOutputForCalculator : Type := {
  id : string;
  name : string;
  network : string;
  protocol : string;
  source : string;
  token_price : number;
  total_supplied : number;
  total_borrowed : number;
  fee_percentage : number;
  optimal_usage_ratio : number;
  reserve_factor : number;
  yearlySupplyTokens : string;
  rewardTokenDecimals : number;
  rewardTokenPriceUsd : string;
  rate_per_second : string
}.

(** The first argument of [borrowRateView]. *)
Record MarketParams : Type := {
  loanToken : string;
  collateralToken : string;
  oracle : string;
  irm : string;
  params_lltv : string
}.

(** The second argument of [borrowRateView]. *)
Record MarketStruct : Type := {
  totalSupplyAssets : string;
  totalSupplyShares : string;
  totalBorrowAssets : string;
  totalBorrowShares : string;
  lastUpdate : string;
  struct_fee : string
}.

(** ** Thrown values *)

(** The program throws object literals carrying some of [message], [status],
    [details] and [rawResponse], and inspects what it catches by the same four
    properties.  An [Error] raised by the platform carries [message] only. *)
Record JsError : Type := {
  message : option string;
  status : option Z;
  details : option JSValue;
  rawResponse : option string
}.

Definition NativeError (msg : string) : JsError :=
  {| message := Some msg; status := None; details := None; rawResponse := None |}.

Definition string_truthy (s : option string) : bool :=
  match s with
  | Some x => nonempty x
  | None => false
  end.

Definition status_truthy (s : option Z) : bool :=
  match s with
  | Some n => negb (n =? 0)
  | None => false
  end.

(** An error object seen as a value, for the places where the handlers store
    the caught object itself. *)
Definition JsError_value (e : JsError) : JSValue :=
  JObj ((match message e with Some m => [("message", JStr m)] | None => [] end)
     ++ (match status e with Some n => [("status", JNum (number_of_Z n))] | None => [] end)
     ++ (match details e with Some d => [("details", d)] | None => [] end)
     ++ (match rawResponse e with Some r => [("rawResponse", JStr r)] | None => [] end)).

(** ** Completions, events and the [IO] monad *)

Inductive Completion (A : Type) : Type :=
| Normal (a : A)
| Throw (e : JsError).

Arguments Normal {A} a.
Arguments Throw {A} e.

Record GraphQLRequest : Type := {
  url : string;
  method : string;
  headers : list (string * string);
  query : string;
  variables : FetchMarketsVariables
}.

(** What the program does to the outside, in the order it does it. *)
Inductive Event : Type :=
| GraphQLCall (req : GraphQLRequest)
| FileWrite (file : string) (content : string)
| ChainCall (contract : string) (params : MarketParams) (market : MarketStruct).

Definition Trace : Type := list Event.

Definition IO (A : Type) : Type := Trace -> Completion A * Trace.

Definition ret {A : Type} (a : A) : IO A :=
  fun t => (Normal a, t).

Definition throw {A : Type} (e : JsError) : IO A :=
  fun t => (Throw e, t).

Definition bind {A B : Type} (m : IO A) (k : A -> IO B) : IO B :=
  fun t =>
    match m t with
    | (Normal a, t') => k a t'
    | (Throw e, t') => (Throw e, t')
    end.

(** [try { body } catch (e) { handler e }] *)
Definition try_catch {A : Type} (body : IO A) (handler : JsError -> IO A) : IO A :=
  fun t =>
    match body t with
    | (Normal a, t') => (Normal a, t')
    | (Throw e, t') => handler e t'
    end.

(** A computation without outside effect. *)
Definition lift {A : Type} (c : Completion A) : IO A :=
  fun t => (c, t).

Definition emit (e : Event) : IO unit :=
  fun t => (Normal tt, (t ++ [e])%list).

Declare Scope io_scope.
Delimit Scope io_scope with io.
Notation "x <- m ;; k" := (bind m (fun x => k))
  (at level 61, m at next level, right associativity) : io_scope.
Notation "m ;;; k" := (bind m (fun _ => k))
  (at level 61, right associativity) : io_scope.
Local Open Scope io_scope.

(** How [Promise.all] settles from the first promise and the rest: it
    fulfils with all the values, or rejects.  When several promises reject,
    JavaScript rejects with the one that rejects first in time; the model
    takes the first in the order of the list. *)
Definition settle {B : Type} (r : Completion B) (rs : Completion (list B))
    : Completion (list B) :=
  match r, rs with
  | Normal y, Normal ys => Normal (y :: ys)
  | Throw e, _ => Throw e
  | Normal _, Throw e => Throw e
  end.

(** [Promise.all(xs.map(f))] for an [f] that starts its outbound call when it
    is invoked: [map] invokes [f] on every element, in the order of [xs] and
    whether or not an earlier promise rejects, and the values are collected
    in the order of [xs]. *)
Fixpoint Promise_all_map {A B : Type} (f : A -> IO B) (xs : list A) : IO (list B) :=
  fun t =>
    match xs with
    | [] => (Normal [], t)
    | x :: rest =>
        let '(r, t1) := f x t in
        let '(rs, t2) := Promise_all_map f rest t1 in
        (settle r rs, t2)
    end.

(** ** The outside world *)

(** What [fetch] resolves with: the transport status and the outcome of
    reading the body with [response.text()]. *)
Record HttpResponse : Type := {
  resp_status : Z;
  resp_text : Completion string
}.

(** [response.ok] *)
Definition ok (r : HttpResponse) : bool :=
  (200 <=? resp_status r) && (resp_status r <=? 299).

(** Everything the program obtains from outside itself.

    - [JSON_parse], [Number] (applied to strings), [Math_pow] and
      [Number_toString] are the platform's built-ins.  [JSON_parse] throws a
      [SyntaxError] on text that is not JSON.
    - [fetch] is the GraphQL endpoint seen through the transport: it rejects,
      or resolves with a response.
    - [writeFileSync] returns or throws.
    - [borrowRateView] is the interest-rate-model contract seen through the
      chain node.  Its first argument is the number of chain calls the
      request has started before this one, so that two calls with the same
      arguments may end differently. *)
Record World : Type := {
  JSON_parse : string -> Completion JSValue;
  Number : string -> number;
  Math_pow : number -> number -> number;
  Number_toString : number -> string;
  fetch : GraphQLRequest -> Completion HttpResponse;
  writeFileSync : string -> string -> Completion unit;
  borrowRateView : nat -> MarketParams -> MarketStruct -> Completion N
}.

(** The same world with another file system. *)
Definition with_writeFileSync (w : World) (f : string -> string -> Completion unit) : World :=
  {| JSON_parse := JSON_parse w;
     Number := Number w;
     Math_pow := Math_pow w;
     Number_toString := Number_toString w;
     fetch := fetch w;
     writeFileSync := f;
     borrowRateView := borrowRateView w |}.

(** The same world with another chain node. *)
Definition with_borrowRateView (w : World)
    (f : nat -> MarketParams -> MarketStruct -> Completion N) : World :=
  {| JSON_parse := JSON_parse w;
     Number := Number w;
     Math_pow := Math_pow w;
     Number_toString := Number_toString w;
     fetch := fetch w;
     writeFileSync := writeFileSync w;
     borrowRateView := f |}.

(** ** [morphoMarkets.ts] *)

Module MorphoMarkets.

Definition MORPHO_API_URL : string := "https://api.morpho.org/graphql".

Definition dquote : string := String (ascii_of_nat 34) EmptyString.
Definition nl : string := String (ascii_of_nat 10) EmptyString.

Definition NEW_MORPHO_MARKETS_QUERY : string :=
  String.concat nl
    [ "";
      "query Query($where: MarketFilters = { loanAssetAddress_in: " ++ dquote
        ++ "0xA0b86991c6218b36c1d19D4a2e9Eb0cE3606eB48" ++ dquote
        ++ ", whitelisted: true }, $first: Int = 4, $orderBy: MarketOrderBy) {";
      "  markets(where: $where, first: $first, orderBy: $orderBy) {";
      "    items {";
      "      loanAsset {";
      "        address";
      "        decimals";
      "        symbol";
      "        priceUsd";
      "        chain {";
      "          network";
      "        }";
      "      }";
      "      uniqueKey";
      "      state {";
      "        price";
      "        fee";
      "        supplyAssets";
      "        borrowAssets";
      "        supplyShares";
      "        borrowShares";
      "        timestamp";
      "        rewards {";
      "          yearlySupplyTokens";
      "          asset {";
      "            decimals";
      "            priceUsd";
      "          }";
      "        }";
      "      }";
      "      collateralAsset {";
      "        address";
      "      }";
      "      irmAddress";
      "      lltv";
      "      oracleAddress";
      "    }";
      "  }";
      "}";
      "" ].

(** The file of [saveRawResponse], in the directory of the module. *)
Definition RAW_RESPONSE_FILE : string := "raw_graphql_response.json".

(** [fs.writeFileSync(filePath, responseText, 'utf8')]: the event records
    that the write was attempted, the world decides how it ends. *)
Definition fs_writeFileSync (w : World) (file content : string) : IO unit :=
  emit (FileWrite file content) ;;;
  lift (writeFileSync w file content).

Definition saveRawResponse (w : World) (responseText : string) : IO unit :=
  try_catch
    (fs_writeFileSync w RAW_RESPONSE_FILE responseText)
    (fun fileError => ret tt).

(** The [throw] of the parsed body stands inside the [try] block, so the
    [catch] clause below it receives it. *)
Definition handleGraphQLError (w : World) (response : HttpResponse)
    (responseText : string) : IO Empty_set :=
  try_catch
    (errorJson <- lift (JSON_parse w responseText) ;;
     throw {| message := Some ("HTTP error! status: " ++ string_of_Z (resp_status response));
              status := Some (resp_status response);
              details := Some errorJson;
              rawResponse := None |})
    (fun e =>
     throw {| message := Some ("HTTP error! status: " ++ string_of_Z (resp_status response)
                               ++ ". Response not JSON: " ++ responseText);
              status := Some (resp_status response);
              details := None;
              rawResponse := Some responseText |}).

(** The request [fetch] is given: [MORPHO_API_URL] with the method, the
    headers and the body [{ query, variables }], kept as a record instead of
    its JSON text.  The argument is an object, so [variables || {}] is
    [variables]. *)
Definition graphql_request (vars : FetchMarketsVariables) : GraphQLRequest :=
  {| url := MORPHO_API_URL;
     method := "POST";
     headers := [("Content-Type", "application/json");
                 ("Accept", "application/json")];
     query := NEW_MORPHO_MARKETS_QUERY;
     variables := vars |}.

(** [await fetch(MORPHO_API_URL, { method, headers, body })] *)
Definition post_graphql (w : World) (vars : FetchMarketsVariables) : IO HttpResponse :=
  emit (GraphQLCall (graphql_request vars)) ;;;
  lift (fetch w (graphql_request vars)).

(** [result.data?.markets?.items]; reading [data] off [null] is a
    [TypeError]. *)
Definition data_markets_items (result : JSValue) : Completion (option JSValue) :=
  match result with
  | JNull => Throw (NativeError "Cannot read properties of null (reading 'data')")
  | _ => Normal (opt_prop (opt_prop (prop result "data") "markets") "items")
  end.

(** [error.status || 500] *)
Definition status_or_500 (error : JsError) : Z :=
  match status error with
  | Some n => if n =? 0 then 500 else n
  | None => 500
  end.

(** [error.message || error] *)
Definition message_or_self (error : JsError) : JSValue :=
  match message error with
  | Some m => if nonempty m then JStr m else JsError_value error
  | None => JsError_value error
  end.

Definition fetchMorphoMarketsAPI (w : World) (vars : FetchMarketsVariables) : IO JSValue :=
  try_catch
    (response <- post_graphql w vars ;;
     responseBodyText <- lift (resp_text response) ;;
     saveRawResponse w responseBodyText ;;;
     (if negb (ok response)
      then never <- handleGraphQLError w response responseBodyText ;;
           match never : Empty_set with end
      else ret tt) ;;;
     result <- lift (JSON_parse w responseBodyText) ;;
     items <- lift (data_markets_items result) ;;
     match (if truthy_opt items then items else None) with
     | Some v => ret v
     | None =>
         throw {| message := Some "GraphQL query successful but data not in expected structure";
                  status := Some 500;
                  details := Some result;
                  rawResponse := None |}
     end)
    (fun error =>
     if status_truthy (status error) && truthy_opt (details error) then throw error
     else if status_truthy (status error) && string_truthy (rawResponse error) then throw error
     else throw {| message := Some "Failed to fetch or parse data from Morpho API.";
                   status := Some (status_or_500 error);
                   details := Some (message_or_self error);
                   rawResponse := None |}).

End MorphoMarkets.

(** ** The server module *)

Module Server.

Import MorphoMarkets.

Definition INTEREST_RATE_MODEL_ADDRESS : string :=
  "0x870aC11D48B15DB9a138Cf899d20F13F79Ba00BC".

Definition ZERO_ADDRESS : string :=
  "0x0000000000000000000000000000000000000000".

(** [market.collateralAsset?.address || ZERO_ADDRESS] *)
Definition collateral_address_or_zero (c : option MarketCollateralAsset) : string :=
  match c with
  | Some a => if nonempty (collateral_address a) then collateral_address a else ZERO_ADDRESS
  | None => ZERO_ADDRESS
  end.

Definition buildMarketParams (market : FetchedMorphoMarket) : MarketParams :=
  {| loanToken := loan_address (loanAsset market);
     collateralToken := collateral_address_or_zero (collateralAsset market);
     oracle := oracleAddress market;
     irm := irmAddress market;
     params_lltv := lltv market |}.

Definition buildMarketStruct (w : World) (market : FetchedMorphoMarket) : MarketStruct :=
  {| totalSupplyAssets := supplyAssets (state market);
     totalSupplyShares := supplyShares (state market);
     totalBorrowAssets := borrowAssets (state market);
     totalBorrowShares := borrowShares (state market);
     lastUpdate := Number_toString w (timestamp (state market));
     struct_fee := Number_toString w (fee (state market)) |}.

Definition is_chain_call (e : Event) : bool :=
  match e with
  | ChainCall _ _ _ => true
  | _ => false
  end.

(** The number of chain calls started so far. *)
Definition chain_calls (t : Trace) : nat :=
  List.length (List.filter is_chain_call t).

(** [await contract.borrowRateView(marketParams, marketStruct)] on the
    contract at [INTEREST_RATE_MODEL_ADDRESS]. *)
Definition contract_borrowRateView (w : World) (p : MarketParams) (s : MarketStruct) : IO N :=
  fun t =>
    (borrowRateView w (chain_calls t) p s,
     (t ++ [ChainCall INTEREST_RATE_MODEL_ADDRESS p s])%list).

Definition getBorrowRateFromContract (w : World) (market : FetchedMorphoMarket)
    : IO (option string) :=
  try_catch
    (let marketParams := buildMarketParams market in
     let marketStruct := buildMarketStruct w market in
     rate <- contract_borrowRateView w marketParams marketStruct ;;
     ret (Some (BigNumber_toString rate)))
    (fun err => ret None).

(** [loanAsset.chain?.network || 'Unknown'] *)
Definition network_or_unknown (c : option MarketChainInfo) : string :=
  match c with
  | Some i => if nonempty (chain_network i) then chain_network i else "Unknown"
  | None => "Unknown"
  end.

(** [state.rewards && state.rewards.length > 0 ? state.rewards[0] : null] *)
Definition first_reward (r : option (list MarketRewardsInfo)) : option MarketRewardsInfo :=
  match r with
  | Some (x :: _) => Some x
  | _ => None
  end.

(** A possibly [undefined] string inside a template literal. *)
Definition template_string (s : option string) : string :=
  match s with
  | Some x => x
  | None => "undefined"
  end.

Definition transformMarketData (w : World) (market : FetchedMorphoMarket)
    : IO MarketOutputForCalculator :=
  let loanAsset := loanAsset market in
  let collateralAsset := collateralAsset market in
  let state := state market in
  let uniqueKey := uniqueKey market in
  let network := network_or_unknown (chain loanAsset) in
  let reward := first_reward (rewards state) in
  rate <- getBorrowRateFromContract w market ;;
  let rate_per_second := match rate with Some r => r | None => "0" end in
  let loanAssetPrice := Number w (loan_priceUsd loanAsset) in
  let supplyAssetsInUsd :=
    ((Number w (supplyAssets state) / Math_pow w 10 (loan_decimals loanAsset))
     * loanAssetPrice)%float in
  let borrowAssetsInUsd :=
    ((Number w (borrowAssets state) / Math_pow w 10 (loan_decimals loanAsset))
     * loanAssetPrice)%float in
  let marketName :=
    match collateralAsset with
    | Some c => template_string (collateral_symbol c) ++ "/" ++ loan_symbol loanAsset ++ " Market"
    | None => loan_symbol loanAsset ++ " Market"
    end in
  ret {| id := uniqueKey;
         name := marketName;
         network := network;
         protocol := "Morpho";
         source := "Morpho " ++ network;
         token_price := loanAssetPrice;
         total_supplied := supplyAssetsInUsd;
         total_borrowed := borrowAssetsInUsd;
         fee_percentage := fee state;
         optimal_usage_ratio := 0.9%float;
         reserve_factor := 0%float;
         yearlySupplyTokens :=
           match reward with Some r => reward_yearlySupplyTokens r | None => "0" end;
         rewardTokenDecimals :=
           match reward with Some r => reward_decimals (asset r) | None => 18%float end;
         rewardTokenPriceUsd :=
           match reward with Some r => reward_priceUsd (asset r) | None => "0" end;
         rate_per_second := rate_per_second |}.

(** *** The typed view of the fetched items

    [fetchMorphoMarketsAPI] returns the [items] value of the payload as it was
    parsed; its TypeScript return type, [FetchedMorphoMarket[]], is not
    checked at run time.  The embedding makes the annotation explicit: an
    array whose elements conform to the interfaces of [morphoMarkets.ts] is
    read into records. *)

Definition as_string (v : option JSValue) : option string :=
  match v with
  | Some (JStr s) => Some s
  | _ => None
  end.

Definition as_number (v : option JSValue) : option number :=
  match v with
  | Some (JNum x) => Some x
  | _ => None
  end.

Definition obind {A B : Type} (o : option A) (k : A -> option B) : option B :=
  match o with
  | Some a => k a
  | None => None
  end.

Notation "x <-? o ;; k" := (obind o (fun x => k))
  (at level 61, o at next level, right associativity).

(** A field that may be absent or [null]. *)
Definition nullable {A : Type} (read : JSValue -> option A) (v : option JSValue)
    : option (option A) :=
  match v with
  | None => Some None
  | Some JNull => Some None
  | Some x => option_map Some (read x)
  end.

Fixpoint traverse {A : Type} (read : JSValue -> option A) (vs : list JSValue)
    : option (list A) :=
  match vs with
  | [] => Some []
  | v :: rest =>
      a <-? read v ;;
      l <-? traverse read rest ;;
      Some (a :: l)
  end.

Definition as_array {A : Type} (read : JSValue -> option A) (v : JSValue)
    : option (list A) :=
  match v with
  | JArr elems => traverse read elems
  | _ => None
  end.

Definition MarketChainInfo_of (v : JSValue) : option MarketChainInfo :=
  n <-? as_string (prop v "network") ;;
  Some {| chain_network := n |}.

Definition MarketLoanAsset_of (v : JSValue) : option MarketLoanAsset :=
  a <-? as_string (prop v "address") ;;
  d <-? as_number (prop v "decimals") ;;
  s <-? as_string (prop v "symbol") ;;
  p <-? as_string (prop v "priceUsd") ;;
  c <-? nullable MarketChainInfo_of (prop v "chain") ;;
  Some {| loan_address := a; loan_decimals := d; loan_symbol := s;
          loan_priceUsd := p; chain := c |}.

Definition MarketCollateralAsset_of (v : JSValue) : option MarketCollateralAsset :=
  a <-? as_string (prop v "address") ;;
  s <-? nullable (fun x => as_string (Some x)) (prop v "symbol") ;;
  Some {| collateral_address := a; collateral_symbol := s |}.

Definition RewardAssetInfo_of (v : JSValue) : option RewardAssetInfo :=
  d <-? as_number (prop v "decimals") ;;
  p <-? as_string (prop v "priceUsd") ;;
  Some {| reward_decimals := d; reward_priceUsd := p |}.

Definition MarketRewardsInfo_of (v : JSValue) : option MarketRewardsInfo :=
  y <-? as_string (prop v "yearlySupplyTokens") ;;
  a <-? obind (prop v "asset") RewardAssetInfo_of ;;
  Some {| reward_yearlySupplyTokens := y; asset := a |}.

Definition MarketState_of (v : JSValue) : option MarketState :=
  p <-? as_string (prop v "price") ;;
  f <-? as_number (prop v "fee") ;;
  sa <-? as_string (prop v "supplyAssets") ;;
  ba <-? as_string (prop v "borrowAssets") ;;
  ss <-? as_string (prop v "supplyShares") ;;
  bs <-? as_string (prop v "borrowShares") ;;
  t <-? as_number (prop v "timestamp") ;;
  r <-? nullable (as_array MarketRewardsInfo_of) (prop v "rewards") ;;
  Some {| price := p; fee := f; supplyAssets := sa; borrowAssets := ba;
          supplyShares := ss; borrowShares := bs; timestamp := t; rewards := r |}.

Definition FetchedMorphoMarket_of (v : JSValue) : option FetchedMorphoMarket :=
  la <-? obind (prop v "loanAsset") MarketLoanAsset_of ;;
  k <-? as_string (prop v "uniqueKey") ;;
  c <-? nullable MarketCollateralAsset_of (prop v "collateralAsset") ;;
  o <-? as_string (prop v "oracleAddress") ;;
  i <-? as_string (prop v "irmAddress") ;;
  l <-? as_string (prop v "lltv") ;;
  st <-? obind (prop v "state") MarketState_of ;;
  Some {| loanAsset := la; uniqueKey := k; collateralAsset := c; oracleAddress := o;
          irmAddress := i; lltv := l; state := st |}.

(** *** [parseInt]

    [parseInt(string)] without a radix: leading white space is skipped, a sign
    is read, a [0x] or [0X] prefix selects radix 16, and the longest prefix of
    digits is the result; [NaN] ([None]) when there is no digit.  The result
    is the integer read, which is the JavaScript number as long as it is
    below [2^53].  Strings are byte strings here, so only the ASCII white
    space characters are recognised. *)

Definition is_white_space (c : ascii) : bool :=
  let n := nat_of_ascii c in
  (Nat.eqb n 9 || Nat.eqb n 10 || Nat.eqb n 11 || Nat.eqb n 12 || Nat.eqb n 13
   || Nat.eqb n 32)%bool.

Fixpoint trim_start (s : string) : string :=
  match s with
  | String c rest => if is_white_space c then trim_start rest else s
  | EmptyString => EmptyString
  end.

Definition digit_value (radix : Z) (c : ascii) : option Z :=
  let n := Z.of_nat (nat_of_ascii c) in
  let d :=
    if (48 <=? n) && (n <=? 57) then Some (n - 48)
    else if (97 <=? n) && (n <=? 122) then Some (n - 87)
    else if (65 <=? n) && (n <=? 90) then Some (n - 55)
    else None in
  match d with
  | Some v => if v <? radix then Some v else None
  | None => None
  end.

Fixpoint parse_digits (radix : Z) (s : string) (acc : option Z) : option Z :=
  match s with
  | String c rest =>
      match digit_value radix c with
      | Some d =>
          parse_digits radix rest
            (Some (radix * match acc with Some a => a | None => 0 end + d))
      | None => acc
      end
  | EmptyString => acc
  end.

Definition parseInt (input : string) : option Z :=
  let s := trim_start input in
  let '(sign, s) :=
    match s with
    | String "-" rest => (-1, rest)
    | String "+" rest => (1, rest)
    | _ => (1, s)
    end in
  let '(radix, s) :=
    match s with
    | String "0" (String "x" rest) => (16, rest)
    | String "0" (String "X" rest) => (16, rest)
    | _ => (10, s)
    end in
  option_map (Z.mul sign) (parse_digits radix s None).

(** *** The route [GET /markets] *)

(** A value of [req.query]: a string, an array or a nested object. *)
Inductive QueryValue : Type :=
| QString (s : string)
| QArray (vs : list QueryValue)
| QObject (fs : list (string * QueryValue)).

(** The three properties the route reads off [req.query]; [None] is
    [undefined]. *)
Record RequestQuery : Type := {
  q_loanAssetAddress : option QueryValue;
  q_first : option QueryValue;
  q_orderBy : option QueryValue
}.

(** [v && typeof v === 'string'], giving the string. *)
Definition truthy_string (v : option QueryValue) : option string :=
  match v with
  | Some (QString s) => if nonempty s then Some s else None
  | _ => None
  end.

Inductive ResponseBody : Type :=
| JsonMarkets (data : list MarketOutputForCalculator)
| JsonValue (v : JSValue).

(** What the route sends: [res.status(res_status).json(res_body)]. *)
Record ExpressResponse : Type := {
  res_status : Z;
  res_body : ResponseBody
}.

Definition BAD_REQUEST : ExpressResponse :=
  {| res_status := 400;
     res_body := JsonValue
       (JObj [("error", JStr "Missing or invalid required query parameter: loanAssetAddress")]) |}.

(** The statements of the route that set [variables.first]. *)
Definition handle_first (q : option QueryValue) (vars : FetchMarketsVariables)
    : FetchMarketsVariables :=
  match truthy_string q with
  | Some s =>
      match parseInt s with
      | Some firstNum => if 0 <? firstNum then set_first firstNum vars else vars
      | None => vars
      end
  | None => set_first 10 vars
  end.

(** The statements of the route that set [variables.orderBy]. *)
Definition handle_orderBy (q : option QueryValue) (vars : FetchMarketsVariables)
    : FetchMarketsVariables :=
  match truthy_string q with
  | Some s => set_orderBy s vars
  | None => vars
  end.

(** [transformMarketData(market)] for an element of the fetched array.  An
    element outside the declared interfaces is outside the typed model: the
    transformer reads [loanAsset.chain] and [state.rewards] of its argument
    before anything else, which is a [TypeError] when [loanAsset] or [state]
    is missing, and the model gives that [TypeError] to every element outside
    the interfaces. *)
Definition transform_element (w : World) (market : JSValue)
    : IO MarketOutputForCalculator :=
  match FetchedMorphoMarket_of market with
  | Some m => transformMarketData w m
  | None => throw (NativeError "Cannot read properties of undefined (reading 'chain')")
  end.

(** [Promise.all(fetchedMarkets.map(market => transformMarketData(market)))].
    A value that is not an array has no [map]. *)
Definition transform_all (w : World) (fetchedMarkets : JSValue)
    : IO (list MarketOutputForCalculator) :=
  match fetchedMarkets with
  | JArr elems => Promise_all_map (transform_element w) elems
  | _ => throw (NativeError "fetchedMarkets.map is not a function")
  end.

(** [error.message || 'An internal server error occurred'] *)
Definition message_or_default (error : JsError) : string :=
  match message error with
  | Some m => if nonempty m then m else "An internal server error occurred"
  | None => "An internal server error occurred"
  end.

(** [error.details || (error.rawResponse ? { rawResponse: error.rawResponse }
                      : (error.message ? null : error))] *)
Definition response_details (error : JsError) : JSValue :=
  let without_raw :=
    if string_truthy (message error) then JNull else JsError_value error in
  let without_details :=
    match rawResponse error with
    | Some raw => if nonempty raw then JObj [("rawResponse", JStr raw)] else without_raw
    | None => without_raw
    end in
  match details error with
  | Some d => if truthy d then d else without_details
  | None => without_details
  end.

(** The handler of [app.get('/markets', ...)], from the query of the request
    to the response it sends. *)
Definition get_markets (w : World) (q : RequestQuery) : IO ExpressResponse :=
  try_catch
    (let vars := empty_variables in
     match truthy_string (q_loanAssetAddress q) with
     | Some loanAssetAddress =>
         let vars := set_where {| loanAssetAddress_in := Some loanAssetAddress;
                                  whitelisted := Some true |} vars in
         let vars := handle_first (q_first q) vars in
         let vars := handle_orderBy (q_orderBy q) vars in
         fetchedMarkets <- fetchMorphoMarketsAPI w vars ;;
         transformedData <- transform_all w fetchedMarkets ;;
         ret {| res_status := 200; res_body := JsonMarkets transformedData |}
     | None => ret BAD_REQUEST
     end)
    (fun error =>
     ret {| res_status := status_or_500 error;
            res_body := JsonValue
              (JObj [("error", JStr (message_or_default error));
                     ("details", response_details error)]) |}).

End Server.

(** ** A world to run the program in

    The built-ins of [World] are parameters of every statement below.  To run
    the program on examples this module supplies one instance of each,
    covering what the examples use: JSON texts without escape sequences,
    without repeated keys and with integer numbers; decimal numerals
    [digits] and [digits.digits] of at most fifteen digits; powers of ten up
    to [10^15]; integer-valued numbers when rendered.  Outside of that the
    instances give a [SyntaxError] or [NaN], which is not always what the
    platform gives, and no general statement depends on them. *)

Module Sample.

Import MorphoMarkets Server.

Definition is_dquote (c : ascii) : bool := Nat.eqb (nat_of_ascii c) 34.
Definition is_backslash (c : ascii) : bool := Nat.eqb (nat_of_ascii c) 92.

(** JSON texts are written with ['] in place of the double quote. *)
Fixpoint json_text (s : string) : string :=
  match s with
  | String c rest =>
      String (if Ascii.eqb c "'"%char then ascii_of_nat 34 else c) (json_text rest)
  | EmptyString => EmptyString
  end.

Definition is_json_space (c : ascii) : bool :=
  let n := nat_of_ascii c in
  (Nat.eqb n 9 || Nat.eqb n 10 || Nat.eqb n 13 || Nat.eqb n 32)%bool.

Fixpoint skip_space (s : string) : string :=
  match s with
  | String c rest => if is_json_space c then skip_space rest else s
  | EmptyString => EmptyString
  end.

Fixpoint strip_prefix (p s : string) : option string :=
  match p, s with
  | EmptyString, _ => Some s
  | String a p', String b s' => if Ascii.eqb a b then strip_prefix p' s' else None
  | String _ _, EmptyString => None
  end.

(** The characters of a string literal up to its closing quote. *)
Fixpoint read_chars (s : string) : option (string * string) :=
  match s with
  | EmptyString => None
  | String c rest =>
      if is_dquote c then Some (EmptyString, rest)
      else if is_backslash c then None
      else match read_chars rest with
           | Some (body, rest') => Some (String c body, rest')
           | None => None
           end
  end.

Definition is_digit (c : ascii) : bool :=
  let n := nat_of_ascii c in
  (Nat.leb 48 n && Nat.leb n 57)%bool.

(** The digits at the head of [s], their value continuing [acc], and how
    many there are. *)
Fixpoint read_digits (s : string) (acc : Z) (count : nat) : Z * nat * string :=
  match s with
  | String c rest =>
      if is_digit c
      then read_digits rest (10 * acc + (Z.of_nat (nat_of_ascii c) - 48)) (S count)
      else (acc, count, s)
  | EmptyString => (acc, count, s)
  end.

(** An integer literal below [2^53]. *)
Definition read_integer (s : string) : option (number * string) :=
  let '(negative, s) :=
    match s with
    | String "-" rest => (true, rest)
    | _ => (false, s)
    end in
  let leading_zero :=
    match s with
    | String "0" (String c _) => is_digit c
    | _ => false
    end in
  match read_digits s 0 0 with
  | (_, O, _) => None
  | (n, _, rest) =>
      if (n <? 2 ^ 53) && negb leading_zero
      then Some (if negative then (- number_of_Z n)%float else number_of_Z n, rest)
      else None
  end.

Fixpoint read_value (fuel : nat) (s : string) {struct fuel} : option (JSValue * string) :=
  match fuel with
  | O => None
  | S fuel =>
      let s := skip_space s in
      match s with
      | EmptyString => None
      | String c rest =>
          if is_dquote c then
            match read_chars rest with
            | Some (body, rest') => Some (JStr body, rest')
            | None => None
            end
          else if Ascii.eqb c "["%char then
            match skip_space rest with
            | String "]" rest' => Some (JArr [], rest')
            | _ =>
                match read_elements fuel rest with
                | Some (vs, rest') => Some (JArr vs, rest')
                | None => None
                end
            end
          else if Ascii.eqb c "{"%char then
            match skip_space rest with
            | String "}" rest' => Some (JObj [], rest')
            | _ =>
                match read_members fuel rest with
                | Some (fs, rest') => Some (JObj fs, rest')
                | None => None
                end
            end
          else
            match strip_prefix "null" s, strip_prefix "true" s, strip_prefix "false" s with
            | Some rest', _, _ => Some (JNull, rest')
            | _, Some rest', _ => Some (JBool true, rest')
            | _, _, Some rest' => Some (JBool false, rest')
            | _, _, _ =>
                match read_integer s with
                | Some (x, rest') => Some (JNum x, rest')
                | None => None
                end
            end
      end
  end

with read_elements (fuel : nat) (s : string) {struct fuel}
    : option (list JSValue * string) :=
  match fuel with
  | O => None
  | S fuel =>
      match read_value fuel s with
      | Some (v, rest) =>
          match skip_space rest with
          | String "," rest' =>
              match read_elements fuel rest' with
              | Some (vs, rest'') => Some (v :: vs, rest'')
              | None => None
              end
          | String "]" rest' => Some ([v], rest')
          | _ => None
          end
      | None => None
      end
  end

with read_members (fuel : nat) (s : string) {struct fuel}
    : option (list (string * JSValue) * string) :=
  match fuel with
  | O => None
  | S fuel =>
      match skip_space s with
      | String c rest =>
          if is_dquote c then
            match read_chars rest with
            | Some (key, rest1) =>
                match skip_space rest1 with
                | String ":" rest2 =>
                    match read_value fuel rest2 with
                    | Some (v, rest3) =>
                        match skip_space rest3 with
                        | String "," rest4 =>
                            match read_members fuel rest4 with
                            | Some (fs, rest5) => Some ((key, v) :: fs, rest5)
                            | None => None
                            end
                        | String "}" rest4 => Some ([(key, v)], rest4)
                        | _ => None
                        end
                    | None => None
                    end
                | _ => None
                end
            | None => None
            end
          else None
      | EmptyString => None
      end
  end.

Definition SyntaxError : JsError :=
  NativeError "Unexpected token in JSON".

Definition JSON_parse (text : string) : Completion JSValue :=
  match read_value (2 * String.length text + 2) text with
  | Some (v, rest) =>
      match skip_space rest with
      | EmptyString => Normal v
      | String _ _ => Throw SyntaxError
      end
  | None => Throw SyntaxError
  end.

(** The integer a number holds, if it holds one. *)
Definition integer_of (x : number) : option Z :=
  match Prim2SF x with
  | S754_zero _ => Some 0
  | S754_finite negative m e =>
      let v := if 0 <=? e then Some (Z.pos m * 2 ^ e)
               else if Z.pos m mod 2 ^ (- e) =? 0 then Some (Z.pos m / 2 ^ (- e))
               else None in
      if negative then option_map Z.opp v else v
  | _ => None
  end.

(** [Number(s)] for a numeral [digits] or [digits.digits] of at most fifteen
    digits: both the digits read as an integer and the power of ten are
    binary64 values, and their quotient is rounded once. *)
Definition Number (s : string) : number :=
  match s with
  | EmptyString => 0%float
  | String _ _ =>
      match read_digits s 0 0 with
      | (_, O, _) => nan
      | (n, i, EmptyString) => if Nat.leb i 15 then number_of_Z n else nan
      | (n, i, String "." rest) =>
          match read_digits rest n 0 with
          | (m, f, EmptyString) =>
              if Nat.leb (i + f) 15
              then (number_of_Z m / number_of_Z (10 ^ Z.of_nat f))%float
              else nan
          | _ => nan
          end
      | _ => nan
      end
  end.

(** [Math.pow(10, k)] for an integer [k] from 0 to 15. *)
Definition Math_pow (base exponent : number) : number :=
  match integer_of base, integer_of exponent with
  | Some 10, Some k => if (0 <=? k) && (k <=? 15) then number_of_Z (10 ^ k) else nan
  | _, _ => nan
  end.

(** [x.toString()] for an integer-valued [x]. *)
Definition Number_toString (x : number) : string :=
  match integer_of x with
  | Some n => string_of_Z n
  | None => "NaN"
  end.

(** A world in which the GraphQL endpoint always gives [reply], writing the
    file ends as [disk], and the [i]-th chain call ends as [chain i]. *)
Definition world (reply : Completion HttpResponse) (disk : Completion unit)
    (chain : nat -> Completion N) : World :=
  Build_World JSON_parse Number Math_pow Number_toString
    (fun _ => reply) (fun _ _ => disk) (fun i _ _ => chain i).

Definition responds (code : Z) (body : string) : Completion HttpResponse :=
  Normal {| resp_status := code; resp_text := Normal body |}.

Definition USDC : string := "0xA0b86991c6218b36c1d19D4a2e9Eb0cE3606eB48".

(** The text of a market on USDC with the given key and collateral asset. *)
Definition market_text (key collateral : string) : string :=
  json_text
    ("{'loanAsset':{'address':'" ++ USDC ++ "','decimals':6,'symbol':'USDC',"
     ++ "'priceUsd':'1.00','chain':{'network':'ethereum'}},"
     ++ "'uniqueKey':'" ++ key ++ "',"
     ++ "'state':{'price':'2500000000','fee':0,'supplyAssets':'1000000',"
     ++ "'borrowAssets':'250000','supplyShares':'1000000000000',"
     ++ "'borrowShares':'250000000000','timestamp':1700000000,'rewards':[]},"
     ++ "'collateralAsset':" ++ collateral ++ ","
     ++ "'irmAddress':'0x870aC11D48B15DB9a138Cf899d20F13F79Ba00BC',"
     ++ "'lltv':'860000000000000000',"
     ++ "'oracleAddress':'0x48F7E36EB6B826B2dF4B2E630B62Cd25e89E40e2'}").

Definition WETH_COLLATERAL : string :=
  "{'address':'0xC02aaA39b223FE8D0A0e5C4F27eAD9083C756Cc2','symbol':'WETH'}".

Definition ADDRESS_ONLY_COLLATERAL : string :=
  "{'address':'0x2260FAC5E5542a773Aa44fBCfeDf7C193bc2C599'}".

(** A payload with three markets: one whose collateral asset carries a
    symbol, one whose collateral asset has the address only, as the query
    document selects it, and one without collateral asset. *)
Definition three_markets : string :=
  json_text "{'data':{'markets':{'items':["
  ++ market_text "0xb323" WETH_COLLATERAL ++ ","
  ++ market_text "0x3a85" ADDRESS_ONLY_COLLATERAL ++ ","
  ++ market_text "0x7dde" "null"
  ++ "]}}}".

(** The value at [data.markets.items] of a payload text. *)
Definition items_of (text : string) : JSValue :=
  match JSON_parse text with
  | Normal result =>
      match data_markets_items result with
      | Normal (Some v) => v
      | _ => JNull
      end
  | Throw _ => JNull
  end.

Definition query_for (address : string) (first : option string) : RequestQuery :=
  {| q_loanAssetAddress := Some (QString address);
     q_first := option_map QString first;
     q_orderBy := None |}.

(** The records of the three markets of [three_markets]. *)
Definition market (key : string) (collateral : option MarketCollateralAsset)
    : FetchedMorphoMarket :=
  {| loanAsset := {| loan_address := USDC;
                     loan_decimals := 6%float;
                     loan_symbol := "USDC";
                     loan_priceUsd := "1.00";
                     chain := Some {| chain_network := "ethereum" |} |};
     uniqueKey := key;
     collateralAsset := collateral;
     oracleAddress := "0x48F7E36EB6B826B2dF4B2E630B62Cd25e89E40e2";
     irmAddress := "0x870aC11D48B15DB9a138Cf899d20F13F79Ba00BC";
     lltv := "860000000000000000";
     state := {| price := "2500000000";
                 fee := 0%float;
                 supplyAssets := "1000000";
                 borrowAssets := "250000";
                 supplyShares := "1000000000000";
                 borrowShares := "250000000000";
                 timestamp := 1700000000%float;
                 rewards := Some [] |} |}.

Definition WETH : MarketCollateralAsset :=
  {| collateral_address := "0xC02aaA39b223FE8D0A0e5C4F27eAD9083C756Cc2";
     collateral_symbol := Some "WETH" |}.

Definition WBTC : MarketCollateralAsset :=
  {| collateral_address := "0x2260FAC5E5542a773Aa44fBCfeDf7C193bc2C599";
     collateral_symbol := None |}.

Definition markets : list FetchedMorphoMarket :=
  [market "0xb323" (Some WETH); market "0x3a85" (Some WBTC); market "0x7dde" None].

(** A chain node on which the second call of a request reverts. *)
Definition second_call_reverts (i : nat) : Completion N :=
  match i with
  | 1%nat => Throw (NativeError "call revert exception")
  | _ => Normal 1268391679%N
  end.

(** A chain node on which every call reverts. *)
Definition every_call_reverts (i : nat) : Completion N :=
  Throw (NativeError "call revert exception").

Definition disk_full : Completion unit :=
  Throw (NativeError "ENOSPC: no space left on device, write").

(** A transport that cannot reach the endpoint. *)
Definition network_down : Completion HttpResponse :=
  Throw (NativeError "fetch failed").

(** A market on USDC with two reward entries and no collateral asset. *)
Definition rewarded_market : FetchedMorphoMarket :=
  {| loanAsset := loanAsset (market "0x9f2c" None);
     uniqueKey := "0x9f2c";
     collateralAsset := None;
     oracleAddress := oracleAddress (market "0x9f2c" None);
     irmAddress := irmAddress (market "0x9f2c" None);
     lltv := lltv (market "0x9f2c" None);
     state := {| price := "2500000000";
                 fee := 0%float;
                 supplyAssets := "1000000";
                 borrowAssets := "250000";
                 supplyShares := "1000000000000";
                 borrowShares := "250000000000";
                 timestamp := 1700000000%float;
                 rewards :=
                   Some [ {| reward_yearlySupplyTokens := "31536000000000000000000";
                             asset := {| reward_decimals := 18%float;
                                         reward_priceUsd := "1.25" |} |};
                          {| reward_yearlySupplyTokens := "77";
                             asset := {| reward_decimals := 6%float;
                                         reward_priceUsd := "2" |} |} ] |} |}.

(** A market whose loan asset has no chain. *)
Definition chainless_market : FetchedMorphoMarket :=
  {| loanAsset := {| loan_address := USDC;
                     loan_decimals := 6%float;
                     loan_symbol := "USDC";
                     loan_priceUsd := "1.00";
                     chain := None |};
     uniqueKey := "0x51aa";
     collateralAsset := Some WETH;
     oracleAddress := oracleAddress (market "0x51aa" None);
     irmAddress := irmAddress (market "0x51aa" None);
     lltv := lltv (market "0x51aa" None);
     state := state (market "0x51aa" None) |}.

End Sample.

(** ** Vocabulary of the statements *)

Module Spec.

Import MorphoMarkets Server.

(** The event of the chain call for a market. *)
Definition chain_event (w : World) (market : FetchedMorphoMarket) : Event :=
  ChainCall INTEREST_RATE_MODEL_ADDRESS (buildMarketParams market)
    (buildMarketStruct w market).

(** How the chain call for [market] ends when it is the call number [i]. *)
Definition chain_outcome (w : World) (i : nat) (market : FetchedMorphoMarket)
    : Completion N :=
  borrowRateView w i (buildMarketParams market) (buildMarketStruct w market).

Definition is_graphql_call (e : Event) : bool :=
  match e with
  | GraphQLCall _ => true
  | _ => false
  end.

(** The variables the route has built when it calls the fetcher, for a
    request whose [loanAssetAddress] is the non-empty string [address]. *)
Definition route_variables (q : RequestQuery) (address : string) : FetchMarketsVariables :=
  handle_orderBy (q_orderBy q)
    (handle_first (q_first q)
       (set_where {| loanAssetAddress_in := Some address; whitelisted := Some true |}
          empty_variables)).

(** The object the [catch] clause of [handleGraphQLError] throws. *)
Definition not_json_error (code : Z) (responseText : string) : JsError :=
  {| message := Some ("HTTP error! status: " ++ string_of_Z code
                      ++ ". Response not JSON: " ++ responseText);
     status := Some code;
     details := None;
     rawResponse := Some responseText |}.

(** The object [fetchMorphoMarketsAPI] throws for a payload without items. *)
Definition unexpected_structure_error (result : JSValue) : JsError :=
  {| message := Some "GraphQL query successful but data not in expected structure";
     status := Some 500;
     details := Some result;
     rawResponse := None |}.

(** The events of a fetch that started at [t] and received [responseText]. *)
Definition received (t : Trace) (vars : FetchMarketsVariables) (responseText : string)
    : Trace :=
  (t ++ [GraphQLCall (graphql_request vars);
         FileWrite RAW_RESPONSE_FILE responseText])%list.

(** What the [catch] clause of [fetchMorphoMarketsAPI] throws for [error]. *)
Definition rethrown (error : JsError) : JsError :=
  if status_truthy (status error) && truthy_opt (details error) then error
  else if status_truthy (status error) && string_truthy (rawResponse error) then error
  else {| message := Some "Failed to fetch or parse data from Morpho API.";
          status := Some (status_or_500 error);
          details := Some (message_or_self error);
          rawResponse := None |}.

(** What the [catch] clause of the route sends for [error]. *)
Definition error_response (error : JsError) : ExpressResponse :=
  {| res_status := status_or_500 error;
     res_body := JsonValue
       (JObj [("error", JStr (message_or_default error));
              ("details", response_details error)]) |}.

Definition is_file_write (e : Event) : bool :=
  match e with
  | FileWrite _ _ => true
  | _ => false
  end.

(** The object the last [throw] of [fetchMorphoMarketsAPI] builds, with the
    status and the details it is given. *)
Definition failed_fetch_error (code : Z) (d : JSValue) : JsError :=
  {| message := Some "Failed to fetch or parse data from Morpho API.";
     status := Some code;
     details := Some d;
     rawResponse := None |}.

(** The body [{error, details}] of an error response. *)
Definition error_body (error : string) (d : JSValue) : ResponseBody :=
  JsonValue (JObj [("error", JStr error); ("details", d)]).

(** An output with another [rate_per_second]. *)
Definition with_rate (o : MarketOutputForCalculator) (rate : string)
    : MarketOutputForCalculator :=
  {| id := id o;
     name := name o;
     network := network o;
     protocol := protocol o;
     source := source o;
     token_price := token_price o;
     total_supplied := total_supplied o;
     total_borrowed := total_borrowed o;
     fee_percentage := fee_percentage o;
     optimal_usage_ratio := optimal_usage_ratio o;
     reserve_factor := reserve_factor o;
     yearlySupplyTokens := yearlySupplyTokens o;
     rewardTokenDecimals := rewardTokenDecimals o;
     rewardTokenPriceUsd := rewardTokenPriceUsd o;
     rate_per_second := rate |}.

(** An error of the platform: a message and nothing else. *)
Definition plain_error (e : JsError) (m : string) : Prop :=
  message e = Some m /\ m <> "" /\ status e = None.

End Spec.

(** * Properties *)

Import MorphoMarkets Server Spec.

(** ** Running [IO] computations *)

Lemma bind_normal {A B : Type} (m : IO A) (k : A -> IO B) (t t' : Trace) (a : A) :
  m t = (Normal a, t') -> bind m k t = k a t'.
Proof. intros H. unfold bind. rewrite H. reflexivity. Qed.

Lemma bind_throw {A B : Type} (m : IO A) (k : A -> IO B) (t t' : Trace) (e : JsError) :
  m t = (Throw e, t') -> bind m k t = (Throw e, t').
Proof. intros H. unfold bind. rewrite H. reflexivity. Qed.

Lemma try_catch_normal {A : Type} (body : IO A) (h : JsError -> IO A) (t t' : Trace) (a : A) :
  body t = (Normal a, t') -> try_catch body h t = (Normal a, t').
Proof. intros H. unfold try_catch. rewrite H. reflexivity. Qed.

Lemma try_catch_throw {A : Type} (body : IO A) (h : JsError -> IO A) (t t' : Trace) (e : JsError) :
  body t = (Throw e, t') -> try_catch body h t = h e t'.
Proof. intros H. unfold try_catch. rewrite H. reflexivity. Qed.

(** ** The rate enricher and the transformer *)

Section Transformer.

Variable w : World.

Lemma getBorrowRateFromContract_resolves (market : FetchedMorphoMarket) (t : Trace) (rate : N) :
  chain_outcome w (chain_calls t) market = Normal rate ->
  getBorrowRateFromContract w market t
  = (Normal (Some (BigNumber_toString rate)), (t ++ [chain_event w market])%list).
Proof.
  intros H. unfold chain_outcome in H.
  unfold getBorrowRateFromContract, try_catch, bind, contract_borrowRateView, ret.
  rewrite H. reflexivity.
Qed.

Lemma getBorrowRateFromContract_swallows (market : FetchedMorphoMarket) (t : Trace) (e : JsError) :
  chain_outcome w (chain_calls t) market = Throw e ->
  getBorrowRateFromContract w market t = (Normal None, (t ++ [chain_event w market])%list).
Proof.
  intros H. unfold chain_outcome in H.
  unfold getBorrowRateFromContract, try_catch, bind, contract_borrowRateView, ret.
  rewrite H. reflexivity.
Qed.

(** The enricher never throws, and starts exactly one chain call. *)
Lemma getBorrowRateFromContract_returns (market : FetchedMorphoMarket) (t : Trace) :
  exists rate : option string,
    getBorrowRateFromContract w market t = (Normal rate, (t ++ [chain_event w market])%list).
Proof.
  destruct (chain_outcome w (chain_calls t) market) as [rate | e] eqn:H.
  - eexists. apply getBorrowRateFromContract_resolves. exact H.
  - eexists. apply (getBorrowRateFromContract_swallows _ _ e). exact H.
Qed.

(** The transformer never throws; its only event is the chain call. *)
Lemma transformMarketData_returns (market : FetchedMorphoMarket) (t : Trace) :
  exists o : MarketOutputForCalculator,
    transformMarketData w market t = (Normal o, (t ++ [chain_event w market])%list).
Proof.
  destruct (getBorrowRateFromContract_returns market t) as [rate H].
  unfold transformMarketData.
  rewrite (bind_normal _ _ _ _ _ H). unfold ret. eexists. reflexivity.
Qed.

(** What the transformer computes once the enricher has returned [rate]. *)
Lemma transformMarketData_after_enrich (market : FetchedMorphoMarket) (t t' : Trace)
    (rate : option string) (o : MarketOutputForCalculator) :
  getBorrowRateFromContract w market t = (Normal rate, t') ->
  transformMarketData w market t = (Normal o, t') ->
  id o = uniqueKey market
  /\ name o = match collateralAsset market with
              | Some c => template_string (collateral_symbol c) ++ "/"
                          ++ loan_symbol (loanAsset market) ++ " Market"
              | None => loan_symbol (loanAsset market) ++ " Market"
              end
  /\ network o = network_or_unknown (chain (loanAsset market))
  /\ protocol o = "Morpho"
  /\ source o = "Morpho " ++ network_or_unknown (chain (loanAsset market))
  /\ total_supplied o
     = ((Number w (supplyAssets (state market))
         / Math_pow w 10 (loan_decimals (loanAsset market)))
        * Number w (loan_priceUsd (loanAsset market)))%float
  /\ total_borrowed o
     = ((Number w (borrowAssets (state market))
         / Math_pow w 10 (loan_decimals (loanAsset market)))
        * Number w (loan_priceUsd (loanAsset market)))%float
  /\ optimal_usage_ratio o = 0.9%float
  /\ reserve_factor o = 0%float
  /\ rate_per_second o = match rate with Some r => r | None => "0" end.
Proof.
  intros Hrate Hrun. unfold transformMarketData in Hrun.
  rewrite (bind_normal _ _ _ _ _ Hrate) in Hrun. unfold ret in Hrun.
  injection Hrun as <-. cbn. repeat split; reflexivity.
Qed.

End Transformer.

(** ** The output of the transformer *)

(** C2.  The display name of a transformed market: when the market has a
    collateral asset whose symbol is [S], the name is [S], a slash, the loan
    asset's symbol and [" Market"]; when it has no collateral asset, the name
    is the loan asset's symbol and [" Market"]. *)
Theorem market_name (w : World) (market : FetchedMorphoMarket) (t : Trace) :
  exists (o : MarketOutputForCalculator) (t' : Trace),
    transformMarketData w market t = (Normal o, t')
    /\ (forall (c : MarketCollateralAsset) (S : string),
          collateralAsset market = Some c ->
          collateral_symbol c = Some S ->
          name o = S ++ "/" ++ loan_symbol (loanAsset market) ++ " Market")
    /\ (collateralAsset market = None ->
        name o = loan_symbol (loanAsset market) ++ " Market").
Proof.
  destruct (getBorrowRateFromContract_returns w market t) as [rate Hrate].
  destruct (transformMarketData_returns w market t) as [o Hrun].
  destruct (transformMarketData_after_enrich w market t _ rate o Hrate Hrun)
    as (_ & Hname & _).
  exists o, (t ++ [chain_event w market])%list.
  split; [exact Hrun | split].
  - intros c S Hc HS. rewrite Hname, Hc, HS. reflexivity.
  - intros Hc. rewrite Hname, Hc. reflexivity.
Qed.

Lemma market_name_witness :
  (exists (o : MarketOutputForCalculator) (t' : Trace),
      transformMarketData
        (Sample.world (Sample.responds 200 Sample.three_markets) (Normal tt)
           Sample.second_call_reverts)
        (Sample.market "0xb323" (Some Sample.WETH)) [] = (Normal o, t')
      /\ name o = "WETH/USDC Market")
  /\ (exists (o : MarketOutputForCalculator) (t' : Trace),
      transformMarketData
        (Sample.world (Sample.responds 200 Sample.three_markets) (Normal tt)
           Sample.second_call_reverts)
        (Sample.market "0x7dde" None) [] = (Normal o, t')
      /\ name o = "USDC Market").
Proof.
  split.
  - destruct (market_name
                (Sample.world (Sample.responds 200 Sample.three_markets) (Normal tt)
                   Sample.second_call_reverts)
                (Sample.market "0xb323" (Some Sample.WETH)) [])
      as (o & t' & Hrun & Hsome & _).
    exists o, t'. split; [exact Hrun |].
    apply (Hsome Sample.WETH "WETH"); reflexivity.
  - destruct (market_name
                (Sample.world (Sample.responds 200 Sample.three_markets) (Normal tt)
                   Sample.second_call_reverts)
                (Sample.market "0x7dde" None) [])
      as (o & t' & Hrun & _ & Hnone).
    exists o, t'. split; [exact Hrun |].
    apply Hnone; reflexivity.
Defined.

(** The collateral asset of a fetched market has the fields the query
    document selects, and [symbol] is not one of them: the name of such a
    market starts with the text [undefined]. *)
Lemma market_name_without_symbol (w : World) (market : FetchedMorphoMarket) (t : Trace)
    (c : MarketCollateralAsset) :
  collateralAsset market = Some c ->
  collateral_symbol c = None ->
  exists (o : MarketOutputForCalculator) (t' : Trace),
    transformMarketData w market t = (Normal o, t')
    /\ name o = "undefined/" ++ loan_symbol (loanAsset market) ++ " Market".
Proof.
  intros Hc Hs.
  destruct (getBorrowRateFromContract_returns w market t) as [rate Hrate].
  destruct (transformMarketData_returns w market t) as [o Hrun].
  destruct (transformMarketData_after_enrich w market t _ rate o Hrate Hrun)
    as (_ & Hname & _).
  exists o, (t ++ [chain_event w market])%list.
  split; [exact Hrun |]. rewrite Hname, Hc, Hs. reflexivity.
Qed.

(** C7.  The USD totals of a transformed market are the raw supply and
    borrow amounts, read as numbers, divided by ten to the loan asset's
    decimals and multiplied by the loan asset's price read as a number.  With
    supply ["1000000"], six decimals and price ["1.00"], read as JavaScript
    reads them, the total supplied is [1]. *)
Theorem usd_totals (w : World) (market : FetchedMorphoMarket) (t : Trace) :
  exists (o : MarketOutputForCalculator) (t' : Trace),
    transformMarketData w market t = (Normal o, t')
    /\ total_supplied o
       = ((Number w (supplyAssets (state market))
           / Math_pow w 10 (loan_decimals (loanAsset market)))
          * Number w (loan_priceUsd (loanAsset market)))%float
    /\ total_borrowed o
       = ((Number w (borrowAssets (state market))
           / Math_pow w 10 (loan_decimals (loanAsset market)))
          * Number w (loan_priceUsd (loanAsset market)))%float
    /\ (supplyAssets (state market) = "1000000" ->
        loan_decimals (loanAsset market) = 6%float ->
        loan_priceUsd (loanAsset market) = "1.00" ->
        Number w "1000000" = 1000000%float ->
        Math_pow w 10%float 6%float = 1000000%float ->
        Number w "1.00" = 1%float ->
        total_supplied o = 1%float).
Proof.
  destruct (getBorrowRateFromContract_returns w market t) as [rate Hrate].
  destruct (transformMarketData_returns w market t) as [o Hrun].
  destruct (transformMarketData_after_enrich w market t _ rate o Hrate Hrun)
    as (_ & _ & _ & _ & _ & Hsupplied & Hborrowed & _).
  exists o, (t ++ [chain_event w market])%list.
  split; [exact Hrun | split; [exact Hsupplied | split; [exact Hborrowed |]]].
  intros Hs Hd Hp Hn Hpow Hone.
  rewrite Hsupplied, Hs, Hd, Hp, Hn, Hpow, Hone.
  vm_compute. reflexivity.
Qed.

Lemma usd_totals_witness :
  exists (o : MarketOutputForCalculator) (t' : Trace),
    transformMarketData
      (Sample.world (Sample.responds 200 Sample.three_markets) (Normal tt)
         Sample.second_call_reverts)
      (Sample.market "0xb323" (Some Sample.WETH)) [] = (Normal o, t')
    /\ total_supplied o = 1%float.
Proof.
  destruct (usd_totals
              (Sample.world (Sample.responds 200 Sample.three_markets) (Normal tt)
                 Sample.second_call_reverts)
              (Sample.market "0xb323" (Some Sample.WETH)) [])
    as (o & t' & Hrun & _ & _ & Hone).
  exists o, t'. split; [exact Hrun |].
  apply Hone; vm_compute; reflexivity.
Defined.

(** C10.  The constant fields of a transformed market: [protocol] is
    ["Morpho"], [optimal_usage_ratio] is [0.9], [reserve_factor] is [0],
    [source] is ["Morpho "] followed by the network name, which is the
    [network] field of the output (the loan asset's chain network, or
    ["Unknown"]), and [id] is the market's unique key. *)
Theorem constant_fields (w : World) (market : FetchedMorphoMarket) (t : Trace) :
  exists (o : MarketOutputForCalculator) (t' : Trace),
    transformMarketData w market t = (Normal o, t')
    /\ protocol o = "Morpho"
    /\ optimal_usage_ratio o = 0.9%float
    /\ reserve_factor o = 0%float
    /\ source o = "Morpho " ++ network o
    /\ network o = network_or_unknown (chain (loanAsset market))
    /\ id o = uniqueKey market.
Proof.
  destruct (getBorrowRateFromContract_returns w market t) as [rate Hrate].
  destruct (transformMarketData_returns w market t) as [o Hrun].
  destruct (transformMarketData_after_enrich w market t _ rate o Hrate Hrun)
    as (Hid & _ & Hnet & Hprot & Hsrc & _ & _ & Hopt & Hres & _).
  exists o, (t ++ [chain_event w market])%list.
  rewrite Hnet. repeat split; assumption.
Qed.

(** ** The fetcher, case by case *)

Section Fetcher.

Variable w : World.
Variable vars : FetchMarketsVariables.
Variable t : Trace.

Lemma saveRawResponse_returns (responseText : string) (t0 : Trace) :
  saveRawResponse w responseText t0
  = (Normal tt, (t0 ++ [FileWrite RAW_RESPONSE_FILE responseText])%list).
Proof.
  unfold saveRawResponse, try_catch, fs_writeFileSync, bind, emit, lift, ret.
  destruct (writeFileSync w RAW_RESPONSE_FILE responseText) as [[] | e]; reflexivity.
Qed.

(** Whether or not the body parses, [handleGraphQLError] throws the object
    of its [catch] clause. *)
Lemma handleGraphQLError_throws (response : HttpResponse) (responseText : string)
    (t0 : Trace) :
  handleGraphQLError w response responseText t0
  = (Throw (not_json_error (resp_status response) responseText), t0).
Proof.
  unfold handleGraphQLError, try_catch, bind, lift, throw, not_json_error.
  destruct (JSON_parse w responseText); reflexivity.
Qed.

Ltac run_fetch :=
  unfold fetchMorphoMarketsAPI, post_graphql, received;
  unfold try_catch at 1; unfold bind, emit, lift, ret, throw;
  repeat first
    [ rewrite saveRawResponse_returns
    | rewrite handleGraphQLError_throws
    | match goal with
      | H : _ = _ |- _ => rewrite H
      end
    | progress cbn [negb fst snd] ];
  unfold rethrown, unexpected_structure_error;
  rewrite <- ?app_assoc; cbn [app];
  repeat match goal with
         | |- context [if ?b then _ else _] => destruct b
         end;
  try reflexivity.

Lemma fetch_rejected (e : JsError) :
  fetch w (graphql_request vars) = Throw e ->
  fetchMorphoMarketsAPI w vars t
  = (Throw (rethrown e), (t ++ [GraphQLCall (graphql_request vars)])%list).
Proof. intros H. run_fetch. Qed.

Lemma fetch_body_unreadable (response : HttpResponse) (e : JsError) :
  fetch w (graphql_request vars) = Normal response ->
  resp_text response = Throw e ->
  fetchMorphoMarketsAPI w vars t
  = (Throw (rethrown e), (t ++ [GraphQLCall (graphql_request vars)])%list).
Proof. intros H1 H2. run_fetch. Qed.

Lemma fetch_not_ok (response : HttpResponse) (responseText : string) :
  fetch w (graphql_request vars) = Normal response ->
  resp_text response = Normal responseText ->
  ok response = false ->
  fetchMorphoMarketsAPI w vars t
  = (Throw (rethrown (not_json_error (resp_status response) responseText)),
     received t vars responseText).
Proof. intros H1 H2 H3. run_fetch. Qed.

Lemma fetch_not_json (response : HttpResponse) (responseText : string) (e : JsError) :
  fetch w (graphql_request vars) = Normal response ->
  resp_text response = Normal responseText ->
  ok response = true ->
  JSON_parse w responseText = Throw e ->
  fetchMorphoMarketsAPI w vars t = (Throw (rethrown e), received t vars responseText).
Proof. intros H1 H2 H3 H4. run_fetch. Qed.

Lemma fetch_payload_null (response : HttpResponse) (responseText : string)
    (result : JSValue) (e : JsError) :
  fetch w (graphql_request vars) = Normal response ->
  resp_text response = Normal responseText ->
  ok response = true ->
  JSON_parse w responseText = Normal result ->
  data_markets_items result = Throw e ->
  fetchMorphoMarketsAPI w vars t = (Throw (rethrown e), received t vars responseText).
Proof. intros H1 H2 H3 H4 H5. run_fetch. Qed.

Lemma fetch_without_items (response : HttpResponse) (responseText : string)
    (result : JSValue) (items : option JSValue) :
  fetch w (graphql_request vars) = Normal response ->
  resp_text response = Normal responseText ->
  ok response = true ->
  JSON_parse w responseText = Normal result ->
  data_markets_items result = Normal items ->
  truthy_opt items = false ->
  fetchMorphoMarketsAPI w vars t
  = (Throw (rethrown (unexpected_structure_error result)), received t vars responseText).
Proof.
  intros H1 H2 H3 H4 H5 H6. run_fetch.
Qed.

Lemma fetch_with_items (response : HttpResponse) (responseText : string)
    (result items : JSValue) :
  fetch w (graphql_request vars) = Normal response ->
  resp_text response = Normal responseText ->
  ok response = true ->
  JSON_parse w responseText = Normal result ->
  data_markets_items result = Normal (Some items) ->
  truthy items = true ->
  fetchMorphoMarketsAPI w vars t = (Normal items, received t vars responseText).
Proof.
  intros H1 H2 H3 H4 H5 H6.
  change (truthy_opt (Some items) = true) in H6. run_fetch.
Qed.

End Fetcher.

(** ** The diagnostic file *)

(** The fetch ends in the same way in two worlds that have the same
    [JSON_parse] and the same GraphQL endpoint. *)
Lemma fetch_depends_on_parse_and_endpoint (w w' : World)
    (vars : FetchMarketsVariables) (t : Trace) :
  (forall text, JSON_parse w' text = JSON_parse w text) ->
  (forall req, fetch w' req = fetch w req) ->
  fetchMorphoMarketsAPI w' vars t = fetchMorphoMarketsAPI w vars t.
Proof.
  intros Hsame_parse Hsame_fetch.
  destruct (fetch w (graphql_request vars)) as [response | e] eqn:Hfetch.
  2: { rewrite (fetch_rejected w vars t e Hfetch).
       apply fetch_rejected. rewrite ?Hsame_fetch, ?Hsame_parse; assumption. }
  destruct (resp_text response) as [text | e] eqn:Htext.
  2: { rewrite (fetch_body_unreadable w vars t response e Hfetch Htext).
       apply (fetch_body_unreadable _ vars t response e); rewrite ?Hsame_fetch, ?Hsame_parse; assumption. }
  destruct (ok response) eqn:Hok.
  2: { rewrite (fetch_not_ok w vars t response text Hfetch Htext Hok).
       apply fetch_not_ok; rewrite ?Hsame_fetch, ?Hsame_parse; assumption. }
  destruct (JSON_parse w text) as [result | e] eqn:Hparse.
  2: { rewrite (fetch_not_json w vars t response text e Hfetch Htext Hok Hparse).
       apply (fetch_not_json _ vars t response text e); rewrite ?Hsame_fetch, ?Hsame_parse; assumption. }
  destruct (data_markets_items result) as [items | e] eqn:Hitems.
  2: { rewrite (fetch_payload_null w vars t response text result e
                  Hfetch Htext Hok Hparse Hitems).
       apply (fetch_payload_null _ vars t response text result e); rewrite ?Hsame_fetch, ?Hsame_parse; assumption. }
  destruct (truthy_opt items) eqn:Htruthy.
  - destruct items as [v |]; [| discriminate Htruthy].
    rewrite (fetch_with_items w vars t response text result v
               Hfetch Htext Hok Hparse Hitems Htruthy).
    apply (fetch_with_items _ vars t response text result v); rewrite ?Hsame_fetch, ?Hsame_parse; assumption.
  - rewrite (fetch_without_items w vars t response text result items
               Hfetch Htext Hok Hparse Hitems Htruthy).
    apply (fetch_without_items _ vars t response text result items); rewrite ?Hsame_fetch, ?Hsame_parse; assumption.
Qed.

Lemma fetch_ignores_the_file_system (w : World)
    (f : string -> string -> Completion unit) (vars : FetchMarketsVariables) (t : Trace) :
  fetchMorphoMarketsAPI (with_writeFileSync w f) vars t = fetchMorphoMarketsAPI w vars t.
Proof. apply fetch_depends_on_parse_and_endpoint; reflexivity. Qed.

Lemma fetch_ignores_the_chain (w : World)
    (f : nat -> MarketParams -> MarketStruct -> Completion N)
    (vars : FetchMarketsVariables) (t : Trace) :
  fetchMorphoMarketsAPI (with_borrowRateView w f) vars t = fetchMorphoMarketsAPI w vars t.
Proof. apply fetch_depends_on_parse_and_endpoint; reflexivity. Qed.

(** A fetch that returns has received a body with truthy items, and its
    events are the request and the file write. *)
Lemma fetch_returns_inv (w : World) (vars : FetchMarketsVariables) (t t1 : Trace)
    (items : JSValue) :
  fetchMorphoMarketsAPI w vars t = (Normal items, t1) ->
  exists (response : HttpResponse) (text : string) (result : JSValue),
    fetch w (graphql_request vars) = Normal response
    /\ resp_text response = Normal text
    /\ ok response = true
    /\ JSON_parse w text = Normal result
    /\ data_markets_items result = Normal (Some items)
    /\ truthy items = true
    /\ t1 = (t ++ [GraphQLCall (graphql_request vars);
                   FileWrite RAW_RESPONSE_FILE text])%list.
Proof.
  intros Hrun.
  destruct (fetch w (graphql_request vars)) as [response | e] eqn:Hfetch.
  2: { rewrite (fetch_rejected w vars t e Hfetch) in Hrun. discriminate Hrun. }
  destruct (resp_text response) as [text | e] eqn:Htext.
  2: { rewrite (fetch_body_unreadable w vars t response e Hfetch Htext) in Hrun.
       discriminate Hrun. }
  destruct (ok response) eqn:Hok.
  2: { rewrite (fetch_not_ok w vars t response text Hfetch Htext Hok) in Hrun.
       discriminate Hrun. }
  destruct (JSON_parse w text) as [result | e] eqn:Hparse.
  2: { rewrite (fetch_not_json w vars t response text e Hfetch Htext Hok Hparse) in Hrun.
       discriminate Hrun. }
  destruct (data_markets_items result) as [found | e] eqn:Hitems.
  2: { rewrite (fetch_payload_null w vars t response text result e
                  Hfetch Htext Hok Hparse Hitems) in Hrun. discriminate Hrun. }
  destruct (truthy_opt found) eqn:Htruthy.
  - destruct found as [v |]; [| discriminate Htruthy].
    rewrite (fetch_with_items w vars t response text result v
               Hfetch Htext Hok Hparse Hitems Htruthy) in Hrun.
    injection Hrun as -> <-.
    exists response, text, result. repeat split; assumption.
  - rewrite (fetch_without_items w vars t response text result found
               Hfetch Htext Hok Hparse Hitems Htruthy) in Hrun. discriminate Hrun.
Qed.

(** Every fetch that received a body has the two events of the request and
    of the file write, whatever the status and the body are. *)
Lemma fetch_trace_after_body (w : World) (vars : FetchMarketsVariables) (t : Trace)
    (response : HttpResponse) (text : string) :
  fetch w (graphql_request vars) = Normal response ->
  resp_text response = Normal text ->
  snd (fetchMorphoMarketsAPI w vars t)
  = (t ++ [GraphQLCall (graphql_request vars); FileWrite RAW_RESPONSE_FILE text])%list.
Proof.
  intros Hfetch Htext.
  destruct (ok response) eqn:Hok.
  2: { rewrite (fetch_not_ok w vars t response text Hfetch Htext Hok). reflexivity. }
  destruct (JSON_parse w text) as [result | e] eqn:Hparse.
  2: { rewrite (fetch_not_json w vars t response text e Hfetch Htext Hok Hparse).
       reflexivity. }
  destruct (data_markets_items result) as [items | e] eqn:Hitems.
  2: { rewrite (fetch_payload_null w vars t response text result e
                  Hfetch Htext Hok Hparse Hitems). reflexivity. }
  destruct (truthy_opt items) eqn:Htruthy.
  - destruct items as [v |]; [| discriminate Htruthy].
    rewrite (fetch_with_items w vars t response text result v
               Hfetch Htext Hok Hparse Hitems Htruthy). reflexivity.
  - rewrite (fetch_without_items w vars t response text result items
               Hfetch Htext Hok Hparse Hitems Htruthy). reflexivity.
Qed.

(** Every fetch starts with the request and makes no other request. *)
Lemma fetch_trace (w : World) (vars : FetchMarketsVariables) (t : Trace) :
  exists rest : Trace,
    snd (fetchMorphoMarketsAPI w vars t)
    = (t ++ GraphQLCall (graphql_request vars) :: rest)%list
    /\ List.filter is_graphql_call rest = []
    /\ List.filter is_chain_call rest = [].
Proof.
  destruct (fetch w (graphql_request vars)) as [response | e] eqn:Hfetch.
  2: { rewrite (fetch_rejected w vars t e Hfetch). exists []. repeat split. }
  destruct (resp_text response) as [text | e] eqn:Htext.
  2: { rewrite (fetch_body_unreadable w vars t response e Hfetch Htext).
       exists []. repeat split. }
  exists [FileWrite RAW_RESPONSE_FILE text].
  rewrite (fetch_trace_after_body w vars t response text Hfetch Htext).
  repeat split.
Qed.

(** C9.  Whenever the fetch has received a response body, its events are
    the request followed by the write of that body to the diagnostic file,
    on the error branches and on the success branch alike; and the fetch
    returns or throws the same value whether the write succeeds or throws. *)
Theorem raw_response_is_saved (w : World) (vars : FetchMarketsVariables) (t : Trace) :
  (forall (response : HttpResponse) (text : string),
      fetch w (graphql_request vars) = Normal response ->
      resp_text response = Normal text ->
      snd (fetchMorphoMarketsAPI w vars t)
      = (t ++ [GraphQLCall (graphql_request vars);
               FileWrite RAW_RESPONSE_FILE text])%list)
  /\ (forall (succeeds fails : string -> string -> Completion unit),
        (forall file content, succeeds file content = Normal tt) ->
        (forall file content, exists e, fails file content = Throw e) ->
        fetchMorphoMarketsAPI (with_writeFileSync w succeeds) vars t
        = fetchMorphoMarketsAPI (with_writeFileSync w fails) vars t)
  /\ (forall f : string -> string -> Completion unit,
        fetchMorphoMarketsAPI (with_writeFileSync w f) vars t
        = fetchMorphoMarketsAPI w vars t).
Proof.
  split; [| split].
  - intros response text. apply fetch_trace_after_body.
  - intros succeeds fails _ _.
    rewrite !fetch_ignores_the_file_system. reflexivity.
  - intros f. apply fetch_ignores_the_file_system.
Qed.

Lemma raw_response_is_saved_witness :
  snd (fetchMorphoMarketsAPI
         (Sample.world (Sample.responds 500 (Sample.json_text "{'errors':[]}"))
            Sample.disk_full Sample.every_call_reverts)
         empty_variables [])
  = [GraphQLCall (graphql_request empty_variables);
     FileWrite RAW_RESPONSE_FILE (Sample.json_text "{'errors':[]}")]
  /\ fetchMorphoMarketsAPI
       (with_writeFileSync
          (Sample.world (Sample.responds 200 Sample.three_markets)
             Sample.disk_full Sample.every_call_reverts)
          (fun _ _ => Normal tt))
       empty_variables []
     = fetchMorphoMarketsAPI
         (with_writeFileSync
            (Sample.world (Sample.responds 200 Sample.three_markets)
               Sample.disk_full Sample.every_call_reverts)
            (fun _ _ => Sample.disk_full))
         empty_variables [].
Proof.
  split.
  - apply (proj1 (raw_response_is_saved
                    (Sample.world (Sample.responds 500 (Sample.json_text "{'errors':[]}"))
                       Sample.disk_full Sample.every_call_reverts)
                    empty_variables [])
             {| resp_status := 500;
                resp_text := Normal (Sample.json_text "{'errors':[]}") |}
             (Sample.json_text "{'errors':[]}")); reflexivity.
  - apply (proj1 (proj2 (raw_response_is_saved
                    (Sample.world (Sample.responds 200 Sample.three_markets)
                       Sample.disk_full Sample.every_call_reverts)
                    empty_variables []))).
    + intros file content. reflexivity.
    + intros file content. eexists. reflexivity.
Defined.

(** ** The transformer over all fetched markets *)

Lemma chain_calls_app (t rest : Trace) :
  chain_calls (t ++ rest)%list = (chain_calls t + chain_calls rest)%nat.
Proof.
  unfold chain_calls. rewrite List.filter_app, List.length_app. reflexivity.
Qed.

Lemma chain_calls_snoc (w : World) (market : FetchedMorphoMarket) (t : Trace) :
  chain_calls (t ++ [chain_event w market])%list = S (chain_calls t).
Proof. rewrite chain_calls_app. cbn. lia. Qed.

(** What the transformer returns depends on the trace through the number
    of chain calls only, and on the chain node through the outcome of the
    market's own call only. *)
Lemma transform_depends_on_own_call (w : World)
    (f : nat -> MarketParams -> MarketStruct -> Completion N)
    (market : FetchedMorphoMarket) (t t' : Trace) :
  f (chain_calls t') (buildMarketParams market) (buildMarketStruct w market)
  = chain_outcome w (chain_calls t) market ->
  fst (transformMarketData (with_borrowRateView w f) market t')
  = fst (transformMarketData w market t).
Proof.
  intros H. unfold chain_outcome in H.
  unfold transformMarketData, getBorrowRateFromContract, contract_borrowRateView,
    try_catch, bind, ret.
  cbn [borrowRateView with_borrowRateView].
  change (buildMarketStruct (with_borrowRateView w f) market)
    with (buildMarketStruct w market).
  rewrite H.
  destruct (borrowRateView w (chain_calls t) (buildMarketParams market)
              (buildMarketStruct w market)); reflexivity.
Qed.

Lemma transform_depends_on_call_number (w : World) (market : FetchedMorphoMarket)
    (t t' : Trace) :
  chain_calls t' = chain_calls t ->
  fst (transformMarketData w market t') = fst (transformMarketData w market t).
Proof.
  intros H.
  unfold transformMarketData, getBorrowRateFromContract, contract_borrowRateView,
    try_catch, bind, ret.
  rewrite H.
  destruct (borrowRateView w (chain_calls t) (buildMarketParams market)
              (buildMarketStruct w market)); reflexivity.
Qed.

(** [Promise.all] over the transformer returns one output per market, in
    the order of the markets; the output at position [i] is what the
    transformer returns for the market at position [i] as the chain call
    number [i] after those of [t]. *)
Lemma transform_each (w : World) (markets : list FetchedMorphoMarket) :
  forall t : Trace,
  exists out : list MarketOutputForCalculator,
    Promise_all_map (transformMarketData w) markets t
    = (Normal out, (t ++ List.map (chain_event w) markets)%list)
    /\ List.length out = List.length markets
    /\ forall (i : nat) (market : FetchedMorphoMarket),
         List.nth_error markets i = Some market ->
         exists o : MarketOutputForCalculator,
           List.nth_error out i = Some o
           /\ forall t' : Trace,
                chain_calls t' = (chain_calls t + i)%nat ->
                fst (transformMarketData w market t') = Normal o.
Proof.
  induction markets as [| m rest IH]; intros t.
  - exists []. cbn. rewrite List.app_nil_r.
    split; [reflexivity | split; [reflexivity |]].
    intros [| i] market H; discriminate H.
  - destruct (transformMarketData_returns w m t) as [o Ho].
    destruct (IH (t ++ [chain_event w m])%list) as (out & Hrun & Hlen & Hnth).
    exists (o :: out). split; [| split].
    + cbn [Promise_all_map]. rewrite Ho, Hrun.
      cbn [settle List.map]. rewrite <- List.app_assoc. reflexivity.
    + cbn. rewrite Hlen. reflexivity.
    + intros [| i] market Hi; cbn in Hi.
      * injection Hi as <-. exists o. split; [reflexivity |].
        intros t' Ht'.
        rewrite (transform_depends_on_call_number w m t t') by lia.
        rewrite Ho. reflexivity.
      * destruct (Hnth i market Hi) as (o' & Ho' & Hany).
        exists o'. split; [exact Ho' |].
        intros t' Ht'. apply Hany.
        rewrite chain_calls_snoc. lia.
Qed.

(** On an array whose elements conform to the interfaces, the transformer
    of elements is the transformer of the records. *)
Lemma transform_elements_typed (w : World) (elems : list JSValue) :
  forall (markets : list FetchedMorphoMarket) (t : Trace),
    traverse FetchedMorphoMarket_of elems = Some markets ->
    Promise_all_map (transform_element w) elems t
    = Promise_all_map (transformMarketData w) markets t.
Proof.
  induction elems as [| v rest IH]; intros markets t H; cbn in H.
  - injection H as <-. reflexivity.
  - unfold obind in H.
    destruct (FetchedMorphoMarket_of v) as [m |] eqn:Hv; [| discriminate H].
    destruct (traverse FetchedMorphoMarket_of rest) as [ms |] eqn:Hrest;
      [| discriminate H].
    injection H as <-.
    cbn [Promise_all_map]. unfold transform_element at 1. rewrite Hv.
    destruct (transformMarketData w m t) as [r t1].
    rewrite (IH ms t1 eq_refl). reflexivity.
Qed.

(** The transformer of elements makes chain calls only. *)
Lemma transform_elements_trace (w : World) (elems : list JSValue) :
  forall t : Trace,
  exists rest : Trace,
    snd (Promise_all_map (transform_element w) elems t) = (t ++ rest)%list
    /\ List.filter is_graphql_call rest = [].
Proof.
  induction elems as [| v more IH]; intros t.
  - exists []. cbn. rewrite List.app_nil_r. split; reflexivity.
  - cbn [Promise_all_map]. unfold transform_element at 1.
    destruct (FetchedMorphoMarket_of v) as [m |].
    + destruct (transformMarketData_returns w m t) as [o Ho]. rewrite Ho.
      destruct (IH (t ++ [chain_event w m])%list) as (rest & Hrest & Hnone).
      destruct (Promise_all_map (transform_element w) more (t ++ [chain_event w m])%list)
        as [rs t2].
      cbn [snd] in *. subst t2.
      exists (chain_event w m :: rest). rewrite <- List.app_assoc.
      split; [reflexivity | exact Hnone].
    + unfold throw.
      destruct (IH t) as (rest & Hrest & Hnone).
      destruct (Promise_all_map (transform_element w) more t) as [rs t2].
      cbn [snd] in *. subst t2.
      exists rest. split; [reflexivity | exact Hnone].
Qed.

(** ** The route, case by case *)

Section Route.

Variable w : World.
Variable q : RequestQuery.
Variable t : Trace.

Lemma route_bad_request :
  truthy_string (q_loanAssetAddress q) = None ->
  get_markets w q t = (Normal BAD_REQUEST, t).
Proof.
  intros H. unfold get_markets, try_catch. rewrite H. reflexivity.
Qed.

Lemma route_fetch_failed (address : string) (e : JsError) (t1 : Trace) :
  truthy_string (q_loanAssetAddress q) = Some address ->
  fetchMorphoMarketsAPI w (route_variables q address) t = (Throw e, t1) ->
  get_markets w q t = (Normal (error_response e), t1).
Proof.
  intros H Hfetch. unfold get_markets, try_catch. rewrite H.
  fold (route_variables q address).
  rewrite (bind_throw _ _ _ _ _ Hfetch). reflexivity.
Qed.

Lemma route_transform_failed (address : string) (items : JSValue) (e : JsError)
    (t1 t2 : Trace) :
  truthy_string (q_loanAssetAddress q) = Some address ->
  fetchMorphoMarketsAPI w (route_variables q address) t = (Normal items, t1) ->
  transform_all w items t1 = (Throw e, t2) ->
  get_markets w q t = (Normal (error_response e), t2).
Proof.
  intros H Hfetch Htransform. unfold get_markets, try_catch. rewrite H.
  fold (route_variables q address).
  rewrite (bind_normal _ _ _ _ _ Hfetch), (bind_throw _ _ _ _ _ Htransform).
  reflexivity.
Qed.

Lemma route_succeeds (address : string) (items : JSValue)
    (out : list MarketOutputForCalculator) (t1 t2 : Trace) :
  truthy_string (q_loanAssetAddress q) = Some address ->
  fetchMorphoMarketsAPI w (route_variables q address) t = (Normal items, t1) ->
  transform_all w items t1 = (Normal out, t2) ->
  get_markets w q t
  = (Normal {| res_status := 200; res_body := JsonMarkets out |}, t2).
Proof.
  intros H Hfetch Htransform. unfold get_markets, try_catch. rewrite H.
  fold (route_variables q address).
  rewrite (bind_normal _ _ _ _ _ Hfetch), (bind_normal _ _ _ _ _ Htransform).
  reflexivity.
Qed.

End Route.

(** ** The events of a request *)

(** The transformer phase makes chain calls only. *)
Lemma transform_all_trace (w : World) (items : JSValue) (t : Trace) :
  exists rest : Trace,
    snd (transform_all w items t) = (t ++ rest)%list
    /\ List.filter is_graphql_call rest = [].
Proof.
  assert (Hnone : exists rest : Trace,
             t = (t ++ rest)%list /\ List.filter is_graphql_call rest = []).
  { exists []. rewrite List.app_nil_r. split; reflexivity. }
  destruct items as [| b | x | s | elems | fields]; try exact Hnone.
  apply transform_elements_trace.
Qed.

Lemma where_of_route_variables (q : RequestQuery) (address : string) :
  where_ (route_variables q address)
  = Some {| loanAssetAddress_in := Some address; whitelisted := Some true |}.
Proof.
  unfold route_variables, handle_orderBy, handle_first.
  destruct (truthy_string (q_orderBy q)) as [o |];
    destruct (truthy_string (q_first q)) as [s |]; try reflexivity;
    destruct (parseInt s) as [n |]; try reflexivity;
    destruct (0 <? n); reflexivity.
Qed.

Lemma first_of_route_variables (q : RequestQuery) (address : string) :
  first (route_variables q address)
  = match truthy_string (q_first q) with
    | Some s =>
        match parseInt s with
        | Some n => if 0 <? n then Some n else None
        | None => None
        end
    | None => Some 10
    end.
Proof.
  unfold route_variables, handle_orderBy, handle_first.
  destruct (truthy_string (q_orderBy q)) as [o |];
    destruct (truthy_string (q_first q)) as [s |]; try reflexivity;
    destruct (parseInt s) as [n |]; try reflexivity;
    destruct (0 <? n); reflexivity.
Qed.

(** A request with a non-empty string address makes the GraphQL request
    with the variables of the route, and no other GraphQL request. *)
Lemma route_trace (w : World) (q : RequestQuery) (address : string) (t : Trace) :
  truthy_string (q_loanAssetAddress q) = Some address ->
  exists rest : Trace,
    snd (get_markets w q t)
    = (t ++ GraphQLCall (graphql_request (route_variables q address)) :: rest)%list
    /\ List.filter is_graphql_call rest = [].
Proof.
  intros Haddress.
  destruct (fetch_trace w (route_variables q address) t) as (rest & Htrace & Hrest & _).
  destruct (fetchMorphoMarketsAPI w (route_variables q address) t)
    as [[items | e] t1] eqn:Hfetch; cbn [snd] in Htrace; subst t1.
  - destruct (transform_all_trace w items
                (t ++ GraphQLCall (graphql_request (route_variables q address)) :: rest)%list)
      as (rest' & Htrace' & Hrest').
    exists (rest ++ rest')%list. split.
    + destruct (transform_all w items
                  (t ++ GraphQLCall (graphql_request (route_variables q address)) :: rest)%list)
        as [[out | e] t2] eqn:Htransform; cbn [snd] in Htrace'; subst t2.
      * rewrite (route_succeeds w q t address items out _ _ Haddress Hfetch Htransform).
        cbn [snd]. rewrite <- List.app_assoc. reflexivity.
      * rewrite (route_transform_failed w q t address items e _ _
                   Haddress Hfetch Htransform).
        cbn [snd]. rewrite <- List.app_assoc. reflexivity.
    + rewrite List.filter_app, Hrest, Hrest'. reflexivity.
  - exists rest. split; [| exact Hrest].
    rewrite (route_fetch_failed w q t address e _ Haddress Hfetch). reflexivity.
Qed.

Lemma truthy_string_of_nonempty (s : string) :
  s <> "" -> truthy_string (Some (QString s)) = Some s.
Proof.
  intros H. destruct s as [| c rest]; [contradiction H; reflexivity | reflexivity].
Qed.

(** C6.  A request whose [loanAssetAddress] is missing, or is not a string,
    is answered with status 400 and the body
    [{error: "Missing or invalid required query parameter: loanAssetAddress"}];
    the trace is left as it was, so neither the GraphQL endpoint nor the chain
    node is called. *)
Theorem missing_address_is_rejected (w : World) (q : RequestQuery) (t : Trace) :
  q_loanAssetAddress q = None
  \/ (exists v : QueryValue,
        q_loanAssetAddress q = Some v /\ forall s : string, v <> QString s) ->
  get_markets w q t
  = (Normal {| res_status := 400;
               res_body := JsonValue
                 (JObj [("error",
                         JStr "Missing or invalid required query parameter: loanAssetAddress")]) |},
     t).
Proof.
  intros H. apply route_bad_request.
  destruct H as [H | (v & H & Hv)]; rewrite H; [reflexivity |].
  destruct v as [s | vs | fs]; try reflexivity.
  contradiction (Hv s). reflexivity.
Qed.

Lemma missing_address_is_rejected_witness :
  get_markets
    (Sample.world (Sample.responds 200 Sample.three_markets) (Normal tt)
       Sample.second_call_reverts)
    {| q_loanAssetAddress := None; q_first := Some (QString "5"); q_orderBy := None |} []
  = (Normal {| res_status := 400;
               res_body := JsonValue
                 (JObj [("error",
                         JStr "Missing or invalid required query parameter: loanAssetAddress")]) |},
     [])
  /\ get_markets
       (Sample.world (Sample.responds 200 Sample.three_markets) (Normal tt)
          Sample.second_call_reverts)
       {| q_loanAssetAddress := Some (QArray [QString Sample.USDC; QString Sample.USDC]);
          q_first := None; q_orderBy := None |} []
     = (Normal {| res_status := 400;
                  res_body := JsonValue
                    (JObj [("error",
                            JStr "Missing or invalid required query parameter: loanAssetAddress")]) |},
        []).
Proof.
  split.
  - apply missing_address_is_rejected. left. reflexivity.
  - apply missing_address_is_rejected. right.
    exists (QArray [QString Sample.USDC; QString Sample.USDC]).
    split; [reflexivity | intros s; discriminate].
Defined.

(** C8.  A request whose [loanAssetAddress] is a non-empty string makes
    exactly one GraphQL request, and the variables of that request carry
    [where.whitelisted = true] and [where.loanAssetAddress_in] equal to the
    address. *)
Theorem one_graphql_call (w : World) (q : RequestQuery) (address : string) (t : Trace) :
  q_loanAssetAddress q = Some (QString address) ->
  address <> "" ->
  exists (req : GraphQLRequest) (rest : Trace),
    snd (get_markets w q t) = (t ++ GraphQLCall req :: rest)%list
    /\ List.filter is_graphql_call rest = []
    /\ where_ (variables req)
       = Some {| loanAssetAddress_in := Some address; whitelisted := Some true |}.
Proof.
  intros Hq Hne.
  assert (Haddress : truthy_string (q_loanAssetAddress q) = Some address).
  { rewrite Hq. apply truthy_string_of_nonempty. exact Hne. }
  destruct (route_trace w q address t Haddress) as (rest & Htrace & Hrest).
  exists (graphql_request (route_variables q address)), rest.
  split; [exact Htrace | split; [exact Hrest |]].
  apply where_of_route_variables.
Qed.

Lemma one_graphql_call_witness :
  exists (req : GraphQLRequest) (rest : Trace),
    snd (get_markets
           (Sample.world (Sample.responds 200 Sample.three_markets) (Normal tt)
              Sample.second_call_reverts)
           (Sample.query_for Sample.USDC None) [])
    = GraphQLCall req :: rest
    /\ List.filter is_graphql_call rest = []
    /\ where_ (variables req)
       = Some {| loanAssetAddress_in := Some Sample.USDC; whitelisted := Some true |}.
Proof.
  apply (one_graphql_call
           (Sample.world (Sample.responds 200 Sample.three_markets) (Normal tt)
              Sample.second_call_reverts)
           (Sample.query_for Sample.USDC None) Sample.USDC []).
  - reflexivity.
  - discriminate.
Defined.

(** ** The page size *)

(** C3.  What the route does with the [first] parameter: ["5"] gives
    [first = 5] in the outbound variables and a missing parameter gives the
    default [first = 10]; but for ["-1"], and for every non-empty string
    [parseInt] reads no number from, the route assigns nothing, so the
    outbound variables carry no [first] at all, not the default. *)
Theorem invalid_first_is_left_unset (w : World) (q : RequestQuery) (address : string)
    (t : Trace) :
  truthy_string (q_loanAssetAddress q) = Some address ->
  exists (req : GraphQLRequest) (rest : Trace),
    snd (get_markets w q t) = (t ++ GraphQLCall req :: rest)%list
    /\ List.filter is_graphql_call rest = []
    /\ (q_first q = Some (QString "5") -> first (variables req) = Some 5)
    /\ (q_first q = None -> first (variables req) = Some 10)
    /\ (q_first q = Some (QString "-1") -> first (variables req) = None)
    /\ (forall s : string,
          q_first q = Some (QString s) -> s <> "" -> parseInt s = None ->
          first (variables req) = None).
Proof.
  intros Haddress.
  destruct (route_trace w q address t Haddress) as (rest & Htrace & Hrest).
  exists (graphql_request (route_variables q address)), rest.
  split; [exact Htrace | split; [exact Hrest |]].
  cbn [variables graphql_request]. rewrite first_of_route_variables.
  repeat split.
  - intros H. rewrite H. reflexivity.
  - intros H. rewrite H. reflexivity.
  - intros H. rewrite H. reflexivity.
  - intros s H Hne Hnan. rewrite H, (truthy_string_of_nonempty s Hne), Hnan.
    reflexivity.
Qed.

Lemma invalid_first_is_left_unset_witness :
  exists (req : GraphQLRequest) (rest : Trace),
    snd (get_markets
           (Sample.world (Sample.responds 200 Sample.three_markets) (Normal tt)
              Sample.second_call_reverts)
           (Sample.query_for Sample.USDC (Some "-1")) [])
    = GraphQLCall req :: rest
    /\ first (variables req) = None.
Proof.
  destruct (invalid_first_is_left_unset
              (Sample.world (Sample.responds 200 Sample.three_markets) (Normal tt)
                 Sample.second_call_reverts)
              (Sample.query_for Sample.USDC (Some "-1")) Sample.USDC [])
    as (req & rest & Htrace & _ & _ & _ & Hminus & _).
  - reflexivity.
  - exists req, rest. split; [exact Htrace |]. apply Hminus. reflexivity.
Defined.

(** ** Errors of the GraphQL endpoint *)

Lemma rethrown_not_json_error (code : Z) (text : string) :
  code <> 0 -> text <> "" ->
  rethrown (not_json_error code text) = not_json_error code text.
Proof.
  intros Hcode Htext. unfold rethrown. cbn.
  destruct (Z.eqb_spec code 0) as [-> | _]; [contradiction Hcode; reflexivity |].
  destruct text as [| c rest]; [contradiction Htext; reflexivity | reflexivity].
Qed.

Lemma error_response_not_json_error (code : Z) (text : string) :
  code <> 0 -> text <> "" ->
  error_response (not_json_error code text)
  = {| res_status := code;
       res_body := JsonValue
         (JObj [("error", JStr ("HTTP error! status: " ++ string_of_Z code
                                ++ ". Response not JSON: " ++ text));
                ("details", JObj [("rawResponse", JStr text)])]) |}.
Proof.
  intros Hcode Htext. unfold error_response, status_or_500, response_details. cbn.
  destruct (Z.eqb_spec code 0) as [-> | _]; [contradiction Hcode; reflexivity |].
  destruct text as [| c rest]; [contradiction Htext; reflexivity | reflexivity].
Qed.

(** C1.  What the program does when the GraphQL endpoint answers with a
    status outside 200..299 and a body that parses as JSON: the object thrown
    with the parsed body is caught by the [catch] clause of the same
    function, so the fetch fails with the status, the raw text as
    [rawResponse] and no [details]; the route answers with that status and
    with [details] equal to [{rawResponse: text}], not to the parsed body. *)
Theorem parsed_error_body_is_dropped (w : World) (q : RequestQuery) (address : string)
    (t : Trace) (response : HttpResponse) (text : string) (parsed : JSValue) :
  truthy_string (q_loanAssetAddress q) = Some address ->
  fetch w (graphql_request (route_variables q address)) = Normal response ->
  resp_text response = Normal text ->
  ok response = false ->
  resp_status response <> 0 ->
  text <> "" ->
  JSON_parse w text = Normal parsed ->
  fst (fetchMorphoMarketsAPI w (route_variables q address) t)
  = Throw {| message := Some ("HTTP error! status: " ++ string_of_Z (resp_status response)
                              ++ ". Response not JSON: " ++ text);
             status := Some (resp_status response);
             details := None;
             rawResponse := Some text |}
  /\ fst (get_markets w q t)
     = Normal {| res_status := resp_status response;
                 res_body := JsonValue
                   (JObj [("error",
                           JStr ("HTTP error! status: "
                                 ++ string_of_Z (resp_status response)
                                 ++ ". Response not JSON: " ++ text));
                          ("details", JObj [("rawResponse", JStr text)])]) |}.
Proof.
  intros Haddress Hfetch Htext Hok Hcode Hne _.
  pose proof (fetch_not_ok w (route_variables q address) t response text
                Hfetch Htext Hok) as Hrun.
  rewrite (rethrown_not_json_error _ _ Hcode Hne) in Hrun.
  split.
  - rewrite Hrun. reflexivity.
  - rewrite (route_fetch_failed w q t address _ _ Haddress Hrun).
    cbn [fst]. rewrite (error_response_not_json_error _ _ Hcode Hne). reflexivity.
Qed.

Lemma parsed_error_body_is_dropped_witness :
  JSON_parse
    (Sample.world (Sample.responds 500 (Sample.json_text "{'errors':[]}")) (Normal tt)
       Sample.second_call_reverts)
    (Sample.json_text "{'errors':[]}")
  = Normal (JObj [("errors", JArr [])])
  /\ fst (get_markets
            (Sample.world (Sample.responds 500 (Sample.json_text "{'errors':[]}"))
               (Normal tt) Sample.second_call_reverts)
            (Sample.query_for Sample.USDC None) [])
     = Normal {| res_status := 500;
                 res_body := JsonValue
                   (JObj [("error",
                           JStr ("HTTP error! status: 500. Response not JSON: "
                                 ++ Sample.json_text "{'errors':[]}"));
                          ("details",
                           JObj [("rawResponse",
                                  JStr (Sample.json_text "{'errors':[]}"))])]) |}.
Proof.
  split; [reflexivity |].
  apply (proj2 (parsed_error_body_is_dropped
                  (Sample.world (Sample.responds 500 (Sample.json_text "{'errors':[]}"))
                     (Normal tt) Sample.second_call_reverts)
                  (Sample.query_for Sample.USDC None) Sample.USDC []
                  {| resp_status := 500;
                     resp_text := Normal (Sample.json_text "{'errors':[]}") |}
                  (Sample.json_text "{'errors':[]}")
                  (JObj [("errors", JArr [])])
                  eq_refl eq_refl eq_refl eq_refl
                  ltac:(discriminate) ltac:(discriminate) eq_refl)).
Defined.

(** ** Payloads without items *)

Lemma rethrown_unexpected_structure (result : JSValue) :
  truthy result = true ->
  rethrown (unexpected_structure_error result) = unexpected_structure_error result.
Proof.
  intros H. unfold rethrown. cbn. rewrite H. reflexivity.
Qed.

Lemma error_response_unexpected_structure (result : JSValue) :
  truthy result = true ->
  error_response (unexpected_structure_error result)
  = {| res_status := 500;
       res_body := JsonValue
         (JObj [("error",
                 JStr "GraphQL query successful but data not in expected structure");
                ("details", result)]) |}.
Proof.
  intros H. unfold error_response, response_details. cbn. rewrite H. reflexivity.
Qed.

(** C5, as the specification states it, fails on a falsy payload.  The
    endpoint answers 200 with the body [false]: the payload is the boolean
    [false], it has no [data.markets.items], and the error of the fetch
    carries the message of the mismatch as [details], not the payload. *)
Lemma falsy_payload_counterexample :
  fetch (Sample.world (Sample.responds 200 "false") (Normal tt) Sample.second_call_reverts)
    (graphql_request empty_variables)
  = Normal {| resp_status := 200; resp_text := Normal "false" |}
  /\ ok {| resp_status := 200; resp_text := Normal "false" |} = true
  /\ JSON_parse
       (Sample.world (Sample.responds 200 "false") (Normal tt) Sample.second_call_reverts)
       "false"
     = Normal (JBool false)
  /\ data_markets_items (JBool false) = Normal None
  /\ exists e : JsError,
       fst (fetchMorphoMarketsAPI
              (Sample.world (Sample.responds 200 "false") (Normal tt)
                 Sample.second_call_reverts)
              empty_variables [])
       = Throw e
       /\ status e = Some 500
       /\ details e
          = Some (JStr "GraphQL query successful but data not in expected structure")
       /\ details e <> Some (JBool false).
Proof.
  repeat (split; [reflexivity |]).
  eexists. split; [vm_compute; reflexivity |].
  split; [reflexivity | split; [reflexivity | discriminate]].
Qed.

(** C5, amended.  The transport status is in 200..299 and the body parses
    to [result].  When [result] is truthy and has no truthy
    [data.markets.items], the fetch fails with status 500 and [details] equal
    to [result], and the route answers 500 with the message of the mismatch
    and [result] as [details].  When [data.markets.items] is truthy, as every
    array is, the fetch returns it as it was parsed. *)
Theorem unexpected_structure (w : World) (q : RequestQuery) (address : string)
    (t : Trace) (response : HttpResponse) (text : string) (result : JSValue) :
  truthy_string (q_loanAssetAddress q) = Some address ->
  fetch w (graphql_request (route_variables q address)) = Normal response ->
  resp_text response = Normal text ->
  ok response = true ->
  JSON_parse w text = Normal result ->
  (forall items : option JSValue,
      truthy result = true ->
      data_markets_items result = Normal items ->
      truthy_opt items = false ->
      fst (fetchMorphoMarketsAPI w (route_variables q address) t)
      = Throw {| message :=
                   Some "GraphQL query successful but data not in expected structure";
                 status := Some 500;
                 details := Some result;
                 rawResponse := None |}
      /\ fst (get_markets w q t)
         = Normal {| res_status := 500;
                     res_body := JsonValue
                       (JObj [("error",
                               JStr "GraphQL query successful but data not in expected structure");
                              ("details", result)]) |})
  /\ (forall items : JSValue,
        data_markets_items result = Normal (Some items) ->
        truthy items = true ->
        fst (fetchMorphoMarketsAPI w (route_variables q address) t) = Normal items)
  /\ (forall elems : list JSValue,
        data_markets_items result = Normal (Some (JArr elems)) ->
        fst (fetchMorphoMarketsAPI w (route_variables q address) t) = Normal (JArr elems)).
Proof.
  intros Haddress Hfetch Htext Hok Hparse.
  split; [| split].
  - intros items Htruthy Hitems Hfalsy.
    pose proof (fetch_without_items w (route_variables q address) t response text
                  result items Hfetch Htext Hok Hparse Hitems Hfalsy) as Hrun.
    rewrite (rethrown_unexpected_structure result Htruthy) in Hrun.
    split.
    + rewrite Hrun. reflexivity.
    + rewrite (route_fetch_failed w q t address _ _ Haddress Hrun).
      cbn [fst]. rewrite (error_response_unexpected_structure result Htruthy).
      reflexivity.
  - intros items Hitems Htruthy.
    rewrite (fetch_with_items w (route_variables q address) t response text
               result items Hfetch Htext Hok Hparse Hitems Htruthy).
    reflexivity.
  - intros elems Hitems.
    rewrite (fetch_with_items w (route_variables q address) t response text
               result (JArr elems) Hfetch Htext Hok Hparse Hitems eq_refl).
    reflexivity.
Qed.

Lemma unexpected_structure_witness :
  fst (get_markets
         (Sample.world (Sample.responds 200 (Sample.json_text "{'data':{}}")) (Normal tt)
            Sample.second_call_reverts)
         (Sample.query_for Sample.USDC None) [])
  = Normal {| res_status := 500;
              res_body := JsonValue
                (JObj [("error",
                        JStr "GraphQL query successful but data not in expected structure");
                       ("details", JObj [("data", JObj [])])]) |}
  /\ fst (fetchMorphoMarketsAPI
            (Sample.world
               (Sample.responds 200 (Sample.json_text "{'data':{'markets':{'items':[]}}}"))
               (Normal tt) Sample.second_call_reverts)
            (route_variables (Sample.query_for Sample.USDC None) Sample.USDC) [])
     = Normal (JArr []).
Proof.
  split.
  - apply (proj1 (unexpected_structure
                    (Sample.world (Sample.responds 200 (Sample.json_text "{'data':{}}"))
                       (Normal tt) Sample.second_call_reverts)
                    (Sample.query_for Sample.USDC None) Sample.USDC []
                    {| resp_status := 200;
                       resp_text := Normal (Sample.json_text "{'data':{}}") |}
                    (Sample.json_text "{'data':{}}")
                    (JObj [("data", JObj [])])
                    eq_refl eq_refl eq_refl eq_refl eq_refl)
             None eq_refl eq_refl eq_refl).
  - apply (proj2 (proj2 (unexpected_structure
                    (Sample.world
                       (Sample.responds 200
                          (Sample.json_text "{'data':{'markets':{'items':[]}}}"))
                       (Normal tt) Sample.second_call_reverts)
                    (Sample.query_for Sample.USDC None) Sample.USDC []
                    {| resp_status := 200;
                       resp_text :=
                         Normal (Sample.json_text "{'data':{'markets':{'items':[]}}}") |}
                    (Sample.json_text "{'data':{'markets':{'items':[]}}}")
                    (JObj [("data", JObj [("markets", JObj [("items", JArr [])])])])
                    eq_refl eq_refl eq_refl eq_refl eq_refl))
             []).
    reflexivity.
Defined.

(** ** Failures of the chain call *)

Lemma chain_calls_repeat (e : Event) (i : nat) :
  is_chain_call e = true -> chain_calls (List.repeat e i) = i.
Proof.
  intros He. unfold chain_calls.
  induction i as [| i IH]; [reflexivity |].
  cbn. rewrite He. cbn. rewrite IH. reflexivity.
Qed.

(** What an output says about the market it was made from, when the
    transformer ran as the chain call number [i]. *)
Lemma output_of_market (w : World) (market : FetchedMorphoMarket) (i : nat)
    (o : MarketOutputForCalculator) :
  (forall t : Trace, chain_calls t = i -> fst (transformMarketData w market t) = Normal o) ->
  id o = uniqueKey market
  /\ (forall e : JsError, chain_outcome w i market = Throw e -> rate_per_second o = "0")
  /\ (forall rate : N,
        chain_outcome w i market = Normal rate ->
        rate_per_second o = BigNumber_toString rate).
Proof.
  intros Hany.
  pose (t := List.repeat (chain_event w market) i).
  assert (Ht : chain_calls t = i) by (apply chain_calls_repeat; reflexivity).
  pose proof (Hany t Ht) as Hfst.
  destruct (transformMarketData_returns w market t) as [o' Hrun].
  rewrite Hrun in Hfst. cbn [fst] in Hfst. injection Hfst as ->.
  destruct (getBorrowRateFromContract_returns w market t) as [rate Hrate].
  destruct (transformMarketData_after_enrich w market t _ rate o Hrate Hrun)
    as (Hid & _ & _ & _ & _ & _ & _ & _ & _ & Hper).
  split; [exact Hid | split].
  - intros e He. rewrite <- Ht in He.
    rewrite (getBorrowRateFromContract_swallows w market t e He) in Hrate.
    injection Hrate as <-. exact Hper.
  - intros r Hr. rewrite <- Ht in Hr.
    rewrite (getBorrowRateFromContract_resolves w market t r Hr) in Hrate.
    injection Hrate as <-. exact Hper.
Qed.

Lemma as_array_inv {A : Type} (read : JSValue -> option A) (v : JSValue) (l : list A) :
  as_array read v = Some l ->
  exists elems : list JSValue, v = JArr elems /\ traverse read elems = Some l.
Proof.
  destruct v as [| b | x | s | elems | fields]; try discriminate.
  intros H. exists elems. split; [reflexivity | exact H].
Qed.

(** A request whose fetch returned the markets [markets] is answered with
    status 200 and one output per market, each made by the transformer from
    the market at the same position as the chain call of that position. *)
Lemma route_transforms_each (w : World) (q : RequestQuery) (address : string)
    (items : JSValue) (markets : list FetchedMorphoMarket) (t1 : Trace) :
  truthy_string (q_loanAssetAddress q) = Some address ->
  fetchMorphoMarketsAPI w (route_variables q address) [] = (Normal items, t1) ->
  as_array FetchedMorphoMarket_of items = Some markets ->
  exists (out : list MarketOutputForCalculator) (t2 : Trace),
    get_markets w q []
    = (Normal {| res_status := 200; res_body := JsonMarkets out |}, t2)
    /\ List.length out = List.length markets
    /\ forall (i : nat) (market : FetchedMorphoMarket),
         List.nth_error markets i = Some market ->
         exists o : MarketOutputForCalculator,
           List.nth_error out i = Some o
           /\ forall t' : Trace,
                chain_calls t' = i ->
                fst (transformMarketData w market t') = Normal o.
Proof.
  intros Haddress Hfetch Hitems.
  destruct (as_array_inv _ _ _ Hitems) as (elems & -> & Htraverse).
  destruct (fetch_returns_inv w _ _ _ _ Hfetch)
    as (response & text & result & _ & _ & _ & _ & _ & _ & Ht1).
  destruct (transform_each w markets t1) as (out & Hrun & Hlen & Hnth).
  assert (Htransform :
            transform_all w (JArr elems) t1
            = (Normal out, (t1 ++ List.map (chain_event w) markets)%list)).
  { unfold transform_all.
    rewrite (transform_elements_typed w elems markets t1 Htraverse). exact Hrun. }
  exists out, (t1 ++ List.map (chain_event w) markets)%list.
  split; [| split; [exact Hlen |]].
  - apply (route_succeeds w q [] address (JArr elems) out t1 _
             Haddress Hfetch Htransform).
  - intros i market Hi.
    destruct (Hnth i market Hi) as (o & Ho & Hany).
    exists o. split; [exact Ho |].
    intros t' Ht'. apply Hany. rewrite Ht', Ht1. reflexivity.
Qed.

(** C4.  The fetch of a request returned [N] markets.  The enricher
    returns [null] without throwing for every market whose chain call throws;
    the route answers 200 with exactly [N] transformed markets, in the order
    of the fetched markets; the output of a market whose chain call throws
    has [rate_per_second = "0"]; and the output of a market is the same on
    every chain node on which that market's own call ends in the same way,
    however the calls of the other markets end. *)
Theorem chain_failures_are_isolated (w : World) (q : RequestQuery) (address : string)
    (items : JSValue) (markets : list FetchedMorphoMarket) (t1 : Trace) :
  truthy_string (q_loanAssetAddress q) = Some address ->
  fetchMorphoMarketsAPI w (route_variables q address) [] = (Normal items, t1) ->
  as_array FetchedMorphoMarket_of items = Some markets ->
  (forall (market : FetchedMorphoMarket) (t : Trace) (e : JsError),
      chain_outcome w (chain_calls t) market = Throw e ->
      fst (getBorrowRateFromContract w market t) = Normal None)
  /\ exists (out : list MarketOutputForCalculator) (t2 : Trace),
       get_markets w q []
       = (Normal {| res_status := 200; res_body := JsonMarkets out |}, t2)
       /\ List.length out = List.length markets
       /\ forall (i : nat) (market : FetchedMorphoMarket),
            List.nth_error markets i = Some market ->
            exists o : MarketOutputForCalculator,
              List.nth_error out i = Some o
              /\ id o = uniqueKey market
              /\ (forall e : JsError,
                    chain_outcome w i market = Throw e -> rate_per_second o = "0")
              /\ (forall f : nat -> MarketParams -> MarketStruct -> Completion N,
                    f i (buildMarketParams market) (buildMarketStruct w market)
                    = chain_outcome w i market ->
                    exists (out' : list MarketOutputForCalculator) (t2' : Trace),
                      get_markets (with_borrowRateView w f) q []
                      = (Normal {| res_status := 200; res_body := JsonMarkets out' |}, t2')
                      /\ List.length out' = List.length markets
                      /\ List.nth_error out' i = Some o).
Proof.
  intros Haddress Hfetch Hitems.
  split.
  { intros market t e He.
    rewrite (getBorrowRateFromContract_swallows w market t e He). reflexivity. }
  destruct (route_transforms_each w q address items markets t1 Haddress Hfetch Hitems)
    as (out & t2 & Hrun & Hlen & Hnth).
  exists out, t2. split; [exact Hrun | split; [exact Hlen |]].
  intros i market Hi.
  destruct (Hnth i market Hi) as (o & Ho & Hany).
  destruct (output_of_market w market i o Hany) as (Hid & Hzero & _).
  exists o. split; [exact Ho | split; [exact Hid | split; [exact Hzero |]]].
  intros f Hf.
  assert (Hfetch' :
            fetchMorphoMarketsAPI (with_borrowRateView w f) (route_variables q address) []
            = (Normal items, t1)).
  { rewrite fetch_ignores_the_chain. exact Hfetch. }
  destruct (route_transforms_each (with_borrowRateView w f) q address items markets t1
              Haddress Hfetch' Hitems)
    as (out' & t2' & Hrun' & Hlen' & Hnth').
  exists out', t2'. split; [exact Hrun' | split; [exact Hlen' |]].
  destruct (Hnth' i market Hi) as (o' & Ho' & Hany').
  rewrite Ho'. f_equal.
  pose (t := List.repeat (chain_event w market) i).
  assert (Ht : chain_calls t = i) by (apply chain_calls_repeat; reflexivity).
  pose proof (Hany t Ht) as Hw.
  pose proof (Hany' t Ht) as Hw'.
  rewrite (transform_depends_on_own_call w f market t t) in Hw'.
  - rewrite Hw in Hw'. injection Hw' as <-. reflexivity.
  - rewrite Ht. exact Hf.
Qed.

Lemma chain_failures_are_isolated_witness :
  exists (out : list MarketOutputForCalculator) (t2 : Trace),
    get_markets
      (Sample.world (Sample.responds 200 Sample.three_markets) (Normal tt)
         Sample.second_call_reverts)
      (Sample.query_for Sample.USDC None) []
    = (Normal {| res_status := 200; res_body := JsonMarkets out |}, t2)
    /\ List.length out = 3%nat
    /\ exists o : MarketOutputForCalculator,
         List.nth_error out 1 = Some o
         /\ id o = "0x3a85"
         /\ rate_per_second o = "0".
Proof.
  destruct (chain_failures_are_isolated
              (Sample.world (Sample.responds 200 Sample.three_markets) (Normal tt)
                 Sample.second_call_reverts)
              (Sample.query_for Sample.USDC None) Sample.USDC
              (Sample.items_of Sample.three_markets) Sample.markets
              [GraphQLCall
                 (graphql_request
                    (route_variables (Sample.query_for Sample.USDC None) Sample.USDC));
               FileWrite RAW_RESPONSE_FILE Sample.three_markets])
    as (_ & out & t2 & Hrun & Hlen & Hnth).
  - reflexivity.
  - vm_compute. reflexivity.
  - vm_compute. reflexivity.
  - exists out, t2. split; [exact Hrun | split; [exact Hlen |]].
    destruct (Hnth 1%nat (Sample.market "0x3a85" (Some Sample.WBTC)) eq_refl)
      as (o & Ho & Hid & Hzero & _).
    exists o. split; [exact Ho | split; [exact Hid |]].
    apply (Hzero (NativeError "call revert exception")). reflexivity.
Defined.

(** * Further properties of the fetcher and of the route *)

(** ** Failures the fetcher wraps *)

Lemma rethrown_plain_error (e : JsError) (m : string) :
  plain_error e m -> rethrown e = failed_fetch_error 500 (JStr m).
Proof.
  intros (Hm & Hne & Hs). unfold rethrown, status_or_500, message_or_self.
  rewrite Hs, Hm. cbn.
  destruct m as [| c rest]; [contradiction Hne; reflexivity | reflexivity].
Qed.

Lemma error_response_failed_fetch (code : Z) (m : string) :
  code <> 0 -> m <> "" ->
  error_response (failed_fetch_error code (JStr m))
  = {| res_status := code;
       res_body := error_body "Failed to fetch or parse data from Morpho API." (JStr m) |}.
Proof.
  intros Hcode Hm. unfold error_response, status_or_500, response_details, error_body.
  cbn. destruct (Z.eqb_spec code 0) as [-> | _]; [contradiction Hcode; reflexivity |].
  destruct m as [| c rest]; [contradiction Hm; reflexivity | reflexivity].
Qed.

(** X1.  When the transport fails, by [fetch] rejecting or by the body
    being unreadable, with an error of the platform whose message is [m], the
    fetcher fails with status 500 and [m] as details, and the route answers
    500 with the body [{error: "Failed to fetch or parse data from Morpho
    API.", details: m}].  The only event is the GraphQL request: nothing is
    written to the diagnostic file and the chain node is not called. *)
Theorem transport_failure (w : World) (q : RequestQuery) (address : string)
    (t : Trace) (e : JsError) (m : string) :
  truthy_string (q_loanAssetAddress q) = Some address ->
  fetch w (graphql_request (route_variables q address)) = Throw e
  \/ (exists response : HttpResponse,
        fetch w (graphql_request (route_variables q address)) = Normal response
        /\ resp_text response = Throw e) ->
  plain_error e m ->
  fetchMorphoMarketsAPI w (route_variables q address) t
  = (Throw {| message := Some "Failed to fetch or parse data from Morpho API.";
              status := Some 500;
              details := Some (JStr m);
              rawResponse := None |},
     (t ++ [GraphQLCall (graphql_request (route_variables q address))])%list)
  /\ get_markets w q t
     = (Normal {| res_status := 500;
                  res_body := JsonValue
                    (JObj [("error", JStr "Failed to fetch or parse data from Morpho API.");
                           ("details", JStr m)]) |},
        (t ++ [GraphQLCall (graphql_request (route_variables q address))])%list).
Proof.
  intros Haddress Hfail Hplain.
  assert (Hrun : fetchMorphoMarketsAPI w (route_variables q address) t
                 = (Throw (failed_fetch_error 500 (JStr m)),
                    (t ++ [GraphQLCall (graphql_request (route_variables q address))])%list)).
  { rewrite <- (rethrown_plain_error e m Hplain).
    destruct Hfail as [Hfetch | (response & Hfetch & Htext)].
    - apply fetch_rejected. exact Hfetch.
    - apply (fetch_body_unreadable w _ t response e Hfetch Htext). }
  split; [exact Hrun |].
  rewrite (route_fetch_failed w q t address _ _ Haddress Hrun).
  rewrite error_response_failed_fetch; [reflexivity | discriminate |].
  destruct Hplain as (_ & Hne & _). exact Hne.
Qed.

Lemma transport_failure_witness :
  get_markets
    (Sample.world Sample.network_down (Normal tt) Sample.second_call_reverts)
    (Sample.query_for Sample.USDC None) []
  = (Normal {| res_status := 500;
               res_body := JsonValue
                 (JObj [("error", JStr "Failed to fetch or parse data from Morpho API.");
                        ("details", JStr "fetch failed")]) |},
     [GraphQLCall
        (graphql_request (route_variables (Sample.query_for Sample.USDC None) Sample.USDC))]).
Proof.
  assert (Hplain : plain_error (NativeError "fetch failed") "fetch failed")
    by (repeat split; discriminate).
  assert (Hfetch :
            fetch (Sample.world Sample.network_down (Normal tt) Sample.second_call_reverts)
              (graphql_request
                 (route_variables (Sample.query_for Sample.USDC None) Sample.USDC))
            = Throw (NativeError "fetch failed")) by reflexivity.
  assert (Haddress :
            truthy_string (q_loanAssetAddress (Sample.query_for Sample.USDC None))
            = Some Sample.USDC) by reflexivity.
  pose proof (proj2 (transport_failure _ _ _ [] _ _ Haddress (or_introl Hfetch) Hplain))
    as H.
  exact H.
Defined.

(** X2.  When the status is in 200..299 and the body is not JSON, so that
    [JSON.parse] throws a [SyntaxError] with message [m], the fetcher fails
    with status 500 and [m] as details, after the body has been written to
    the diagnostic file; the route answers 500 with the body
    [{error: "Failed to fetch or parse data from Morpho API.", details: m}]. *)
Theorem success_status_with_unparseable_body (w : World) (q : RequestQuery)
    (address : string) (t : Trace) (response : HttpResponse) (text : string)
    (e : JsError) (m : string) :
  truthy_string (q_loanAssetAddress q) = Some address ->
  fetch w (graphql_request (route_variables q address)) = Normal response ->
  resp_text response = Normal text ->
  ok response = true ->
  JSON_parse w text = Throw e ->
  plain_error e m ->
  get_markets w q t
  = (Normal {| res_status := 500;
               res_body := JsonValue
                 (JObj [("error", JStr "Failed to fetch or parse data from Morpho API.");
                        ("details", JStr m)]) |},
     (t ++ [GraphQLCall (graphql_request (route_variables q address));
            FileWrite RAW_RESPONSE_FILE text])%list).
Proof.
  intros Haddress Hfetch Htext Hok Hparse Hplain.
  pose proof (fetch_not_json w (route_variables q address) t response text e
                Hfetch Htext Hok Hparse) as Hrun.
  rewrite (rethrown_plain_error e m Hplain) in Hrun.
  rewrite (route_fetch_failed w q t address _ _ Haddress Hrun).
  rewrite error_response_failed_fetch; [reflexivity | discriminate |].
  destruct Hplain as (_ & Hne & _). exact Hne.
Qed.

Lemma success_status_with_unparseable_body_witness :
  get_markets
    (Sample.world (Sample.responds 200 "<html>Bad Gateway</html>") (Normal tt)
       Sample.second_call_reverts)
    (Sample.query_for Sample.USDC None) []
  = (Normal {| res_status := 500;
               res_body := JsonValue
                 (JObj [("error", JStr "Failed to fetch or parse data from Morpho API.");
                        ("details", JStr "Unexpected token in JSON")]) |},
     [GraphQLCall
        (graphql_request (route_variables (Sample.query_for Sample.USDC None) Sample.USDC));
      FileWrite RAW_RESPONSE_FILE "<html>Bad Gateway</html>"]).
Proof.
  assert (Hplain : plain_error Sample.SyntaxError "Unexpected token in JSON")
    by (repeat split; discriminate).
  assert (Hfetch :
            fetch (Sample.world (Sample.responds 200 "<html>Bad Gateway</html>")
                     (Normal tt) Sample.second_call_reverts)
              (graphql_request
                 (route_variables (Sample.query_for Sample.USDC None) Sample.USDC))
            = Normal {| resp_status := 200;
                        resp_text := Normal "<html>Bad Gateway</html>" |})
    by reflexivity.
  assert (Haddress :
            truthy_string (q_loanAssetAddress (Sample.query_for Sample.USDC None))
            = Some Sample.USDC) by reflexivity.
  assert (Hparse :
            JSON_parse (Sample.world (Sample.responds 200 "<html>Bad Gateway</html>")
                          (Normal tt) Sample.second_call_reverts)
              "<html>Bad Gateway</html>"
            = Throw Sample.SyntaxError) by (vm_compute; reflexivity).
  pose proof (success_status_with_unparseable_body _ _ _ [] _ _ _ _
                Haddress Hfetch eq_refl eq_refl Hparse Hplain) as H.
  exact H.
Defined.

(** X3.  When the status is outside 200..299 and the body is not empty and
    not JSON, the fetcher fails with the status of the response and the raw
    body as [rawResponse], and the route answers with that status and
    [details] equal to [{rawResponse: text}]. *)
Theorem http_error_with_unparseable_body (w : World) (q : RequestQuery)
    (address : string) (t : Trace) (response : HttpResponse) (text : string)
    (e : JsError) :
  truthy_string (q_loanAssetAddress q) = Some address ->
  fetch w (graphql_request (route_variables q address)) = Normal response ->
  resp_text response = Normal text ->
  ok response = false ->
  resp_status response <> 0 ->
  text <> "" ->
  JSON_parse w text = Throw e ->
  fst (fetchMorphoMarketsAPI w (route_variables q address) t)
  = Throw {| message := Some ("HTTP error! status: " ++ string_of_Z (resp_status response)
                              ++ ". Response not JSON: " ++ text);
             status := Some (resp_status response);
             details := None;
             rawResponse := Some text |}
  /\ fst (get_markets w q t)
     = Normal {| res_status := resp_status response;
                 res_body := JsonValue
                   (JObj [("error",
                           JStr ("HTTP error! status: "
                                 ++ string_of_Z (resp_status response)
                                 ++ ". Response not JSON: " ++ text));
                          ("details", JObj [("rawResponse", JStr text)])]) |}.
Proof.
  intros Haddress Hfetch Htext Hok Hcode Hne _.
  pose proof (fetch_not_ok w (route_variables q address) t response text
                Hfetch Htext Hok) as Hrun.
  rewrite (rethrown_not_json_error _ _ Hcode Hne) in Hrun.
  split.
  - rewrite Hrun. reflexivity.
  - rewrite (route_fetch_failed w q t address _ _ Haddress Hrun).
    cbn [fst]. rewrite (error_response_not_json_error _ _ Hcode Hne). reflexivity.
Qed.

Lemma http_error_with_unparseable_body_witness :
  fst (get_markets
         (Sample.world (Sample.responds 502 "<html>Bad Gateway</html>") (Normal tt)
            Sample.second_call_reverts)
         (Sample.query_for Sample.USDC None) [])
  = Normal {| res_status := 502;
              res_body := JsonValue
                (JObj [("error",
                        JStr "HTTP error! status: 502. Response not JSON: <html>Bad Gateway</html>");
                       ("details",
                        JObj [("rawResponse", JStr "<html>Bad Gateway</html>")])]) |}.
Proof.
  assert (Hfetch :
            fetch (Sample.world (Sample.responds 502 "<html>Bad Gateway</html>")
                     (Normal tt) Sample.second_call_reverts)
              (graphql_request
                 (route_variables (Sample.query_for Sample.USDC None) Sample.USDC))
            = Normal {| resp_status := 502;
                        resp_text := Normal "<html>Bad Gateway</html>" |})
    by reflexivity.
  assert (Haddress :
            truthy_string (q_loanAssetAddress (Sample.query_for Sample.USDC None))
            = Some Sample.USDC) by reflexivity.
  assert (Hparse :
            JSON_parse (Sample.world (Sample.responds 502 "<html>Bad Gateway</html>")
                          (Normal tt) Sample.second_call_reverts)
              "<html>Bad Gateway</html>"
            = Throw Sample.SyntaxError) by (vm_compute; reflexivity).
  assert (Hcode : 502 <> 0) by discriminate.
  assert (Htext : "<html>Bad Gateway</html>" <> "") by discriminate.
  pose proof (proj2 (http_error_with_unparseable_body _ _ _ [] _ _ _
                       Haddress Hfetch eq_refl eq_refl Hcode Htext Hparse)) as H.
  exact H.
Defined.

(** X4.  When the status is outside 200..299 and the body is empty, the
    error of [handleGraphQLError] has an empty [rawResponse] and no
    [details], so the [catch] clause of the fetcher does not rethrow it: the
    fetcher fails with the status of the response, the generic message and
    the message of the HTTP error as details, and the route answers with that
    status and that body. *)
Theorem http_error_with_empty_body (w : World) (q : RequestQuery) (address : string)
    (t : Trace) (response : HttpResponse) :
  truthy_string (q_loanAssetAddress q) = Some address ->
  fetch w (graphql_request (route_variables q address)) = Normal response ->
  resp_text response = Normal "" ->
  ok response = false ->
  resp_status response <> 0 ->
  fst (fetchMorphoMarketsAPI w (route_variables q address) t)
  = Throw {| message := Some "Failed to fetch or parse data from Morpho API.";
             status := Some (resp_status response);
             details := Some (JStr ("HTTP error! status: "
                                    ++ string_of_Z (resp_status response)
                                    ++ ". Response not JSON: "));
             rawResponse := None |}
  /\ fst (get_markets w q t)
     = Normal {| res_status := resp_status response;
                 res_body := JsonValue
                   (JObj [("error", JStr "Failed to fetch or parse data from Morpho API.");
                          ("details",
                           JStr ("HTTP error! status: "
                                 ++ string_of_Z (resp_status response)
                                 ++ ". Response not JSON: "))]) |}.
Proof.
  intros Haddress Hfetch Htext Hok Hcode.
  pose proof (fetch_not_ok w (route_variables q address) t response ""
                Hfetch Htext Hok) as Hrun.
  assert (Hre : rethrown (not_json_error (resp_status response) "")
                = failed_fetch_error (resp_status response)
                    (JStr ("HTTP error! status: " ++ string_of_Z (resp_status response)
                           ++ ". Response not JSON: "))).
  { unfold rethrown, status_or_500, message_or_self. cbn.
    destruct (Z.eqb_spec (resp_status response) 0) as [H0 | _];
      [contradiction Hcode | reflexivity]. }
  rewrite Hre in Hrun.
  split.
  - rewrite Hrun. reflexivity.
  - rewrite (route_fetch_failed w q t address _ _ Haddress Hrun).
    cbn [fst]. rewrite error_response_failed_fetch;
      [reflexivity | exact Hcode | discriminate].
Qed.

Lemma http_error_with_empty_body_witness :
  fst (get_markets
         (Sample.world (Sample.responds 503 "") (Normal tt) Sample.second_call_reverts)
         (Sample.query_for Sample.USDC None) [])
  = Normal {| res_status := 503;
              res_body := JsonValue
                (JObj [("error", JStr "Failed to fetch or parse data from Morpho API.");
                       ("details",
                        JStr "HTTP error! status: 503. Response not JSON: ")]) |}.
Proof.
  assert (Hfetch :
            fetch (Sample.world (Sample.responds 503 "") (Normal tt)
                     Sample.second_call_reverts)
              (graphql_request
                 (route_variables (Sample.query_for Sample.USDC None) Sample.USDC))
            = Normal {| resp_status := 503; resp_text := Normal "" |})
    by reflexivity.
  assert (Haddress :
            truthy_string (q_loanAssetAddress (Sample.query_for Sample.USDC None))
            = Some Sample.USDC) by reflexivity.
  assert (Hcode : 503 <> 0) by discriminate.
  pose proof (proj2 (http_error_with_empty_body _ _ _ [] _
                       Haddress Hfetch eq_refl eq_refl Hcode)) as H.
  exact H.
Defined.

(** X5.  When the status is in 200..299 and the body is the JSON text
    [null], reading [data] off the payload is a [TypeError], which the fetcher
    wraps: the route answers 500 with the generic message, and the details
    are the message of the [TypeError], not the payload. *)
Theorem null_payload (w : World) (q : RequestQuery) (address : string) (t : Trace)
    (response : HttpResponse) (text : string) :
  truthy_string (q_loanAssetAddress q) = Some address ->
  fetch w (graphql_request (route_variables q address)) = Normal response ->
  resp_text response = Normal text ->
  ok response = true ->
  JSON_parse w text = Normal JNull ->
  get_markets w q t
  = (Normal {| res_status := 500;
               res_body := JsonValue
                 (JObj [("error", JStr "Failed to fetch or parse data from Morpho API.");
                        ("details",
                         JStr "Cannot read properties of null (reading 'data')")]) |},
     (t ++ [GraphQLCall (graphql_request (route_variables q address));
            FileWrite RAW_RESPONSE_FILE text])%list).
Proof.
  intros Haddress Hfetch Htext Hok Hparse.
  pose proof (fetch_payload_null w (route_variables q address) t response text JNull
                (NativeError "Cannot read properties of null (reading 'data')")
                Hfetch Htext Hok Hparse eq_refl) as Hrun.
  rewrite (rethrown_plain_error _ "Cannot read properties of null (reading 'data')")
    in Hrun by (repeat split; discriminate).
  rewrite (route_fetch_failed w q t address _ _ Haddress Hrun).
  rewrite error_response_failed_fetch; [reflexivity | discriminate | discriminate].
Qed.

Lemma null_payload_witness :
  get_markets
    (Sample.world (Sample.responds 200 "null") (Normal tt) Sample.second_call_reverts)
    (Sample.query_for Sample.USDC None) []
  = (Normal {| res_status := 500;
               res_body := JsonValue
                 (JObj [("error", JStr "Failed to fetch or parse data from Morpho API.");
                        ("details",
                         JStr "Cannot read properties of null (reading 'data')")]) |},
     [GraphQLCall
        (graphql_request (route_variables (Sample.query_for Sample.USDC None) Sample.USDC));
      FileWrite RAW_RESPONSE_FILE "null"]).
Proof.
  assert (Hfetch :
            fetch (Sample.world (Sample.responds 200 "null") (Normal tt)
                     Sample.second_call_reverts)
              (graphql_request
                 (route_variables (Sample.query_for Sample.USDC None) Sample.USDC))
            = Normal {| resp_status := 200; resp_text := Normal "null" |})
    by reflexivity.
  assert (Haddress :
            truthy_string (q_loanAssetAddress (Sample.query_for Sample.USDC None))
            = Some Sample.USDC) by reflexivity.
  assert (Hparse :
            JSON_parse (Sample.world (Sample.responds 200 "null") (Normal tt)
                          Sample.second_call_reverts) "null"
            = Normal JNull) by (vm_compute; reflexivity).
  pose proof (null_payload _ _ _ [] _ _ Haddress Hfetch eq_refl eq_refl Hparse) as H.
  exact H.
Defined.

(** ** Items that are not a list of markets *)

(** X6.  The fetcher returns any truthy [data.markets.items], array or
    not.  When it is not an array, the route fails at [fetchedMarkets.map]:
    it answers 500 with the message of the [TypeError] and [details: null],
    and the chain node is not called. *)
Theorem items_not_an_array (w : World) (q : RequestQuery) (address : string)
    (t t1 : Trace) (items : JSValue) :
  truthy_string (q_loanAssetAddress q) = Some address ->
  fetchMorphoMarketsAPI w (route_variables q address) t = (Normal items, t1) ->
  (forall elems : list JSValue, items <> JArr elems) ->
  get_markets w q t
  = (Normal {| res_status := 500;
               res_body := JsonValue
                 (JObj [("error", JStr "fetchedMarkets.map is not a function");
                        ("details", JNull)]) |},
     t1).
Proof.
  intros Haddress Hfetch Hnot.
  assert (Htransform :
            transform_all w items t1
            = (Throw (NativeError "fetchedMarkets.map is not a function"), t1)).
  { destruct items as [| b | x | s | elems | fields]; try reflexivity.
    contradiction (Hnot elems). reflexivity. }
  rewrite (route_transform_failed w q t address items _ t1 t1 Haddress Hfetch Htransform).
  reflexivity.
Qed.

Lemma items_not_an_array_witness :
  get_markets
    (Sample.world
       (Sample.responds 200 (Sample.json_text "{'data':{'markets':{'items':{'count':0}}}}"))
       (Normal tt) Sample.second_call_reverts)
    (Sample.query_for Sample.USDC None) []
  = (Normal {| res_status := 500;
               res_body := JsonValue
                 (JObj [("error", JStr "fetchedMarkets.map is not a function");
                        ("details", JNull)]) |},
     [GraphQLCall
        (graphql_request (route_variables (Sample.query_for Sample.USDC None) Sample.USDC));
      FileWrite RAW_RESPONSE_FILE
        (Sample.json_text "{'data':{'markets':{'items':{'count':0}}}}")]).
Proof.
  assert (Haddress :
            truthy_string (q_loanAssetAddress (Sample.query_for Sample.USDC None))
            = Some Sample.USDC) by reflexivity.
  assert (Hfetch :
            fetchMorphoMarketsAPI
              (Sample.world
                 (Sample.responds 200
                    (Sample.json_text "{'data':{'markets':{'items':{'count':0}}}}"))
                 (Normal tt) Sample.second_call_reverts)
              (route_variables (Sample.query_for Sample.USDC None) Sample.USDC) []
            = (Normal (JObj [("count", JNum 0%float)]),
               [GraphQLCall
                  (graphql_request
                     (route_variables (Sample.query_for Sample.USDC None) Sample.USDC));
                FileWrite RAW_RESPONSE_FILE
                  (Sample.json_text "{'data':{'markets':{'items':{'count':0}}}}")]))
    by (vm_compute; reflexivity).
  assert (Hnot : forall elems : list JSValue,
             JObj [("count", JNum 0%float)] <> JArr elems) by (intros elems; discriminate).
  pose proof (items_not_an_array _ _ _ [] _ _ Haddress Hfetch Hnot) as H.
  exact H.
Defined.

(** When the fetcher returns the empty array, the route answers 200
    with the empty array and the chain node is not called. *)
Theorem no_markets (w : World) (q : RequestQuery) (address : string) (t t1 : Trace) :
  truthy_string (q_loanAssetAddress q) = Some address ->
  fetchMorphoMarketsAPI w (route_variables q address) t = (Normal (JArr []), t1) ->
  get_markets w q t
  = (Normal {| res_status := 200; res_body := JsonMarkets [] |}, t1).
Proof.
  intros Haddress Hfetch.
  apply (route_succeeds w q t address (JArr []) [] t1 t1 Haddress Hfetch).
  reflexivity.
Qed.

Lemma no_markets_witness :
  get_markets
    (Sample.world
       (Sample.responds 200 (Sample.json_text "{'data':{'markets':{'items':[]}}}"))
       (Normal tt) Sample.second_call_reverts)
    (Sample.query_for Sample.USDC None) []
  = (Normal {| res_status := 200; res_body := JsonMarkets [] |},
     [GraphQLCall
        (graphql_request (route_variables (Sample.query_for Sample.USDC None) Sample.USDC));
      FileWrite RAW_RESPONSE_FILE
        (Sample.json_text "{'data':{'markets':{'items':[]}}}")]).
Proof.
  assert (Haddress :
            truthy_string (q_loanAssetAddress (Sample.query_for Sample.USDC None))
            = Some Sample.USDC) by reflexivity.
  assert (Hfetch :
            fetchMorphoMarketsAPI
              (Sample.world
                 (Sample.responds 200 (Sample.json_text "{'data':{'markets':{'items':[]}}}"))
                 (Normal tt) Sample.second_call_reverts)
              (route_variables (Sample.query_for Sample.USDC None) Sample.USDC) []
            = (Normal (JArr []),
               [GraphQLCall
                  (graphql_request
                     (route_variables (Sample.query_for Sample.USDC None) Sample.USDC));
                FileWrite RAW_RESPONSE_FILE
                  (Sample.json_text "{'data':{'markets':{'items':[]}}}")]))
    by (vm_compute; reflexivity).
  pose proof (no_markets _ _ _ [] _ Haddress Hfetch) as H.
  exact H.
Defined.

(** ** The chain calls of a request *)

(** X7.  After a fetch that returned markets, the route calls
    [borrowRateView] on the contract at [INTEREST_RATE_MODEL_ADDRESS] exactly
    once per market, in the order of the markets, each call with the
    parameters and the state built from its market; these calls are all the
    events the route adds to those of the fetch. *)
Theorem one_chain_call_per_market (w : World) (q : RequestQuery) (address : string)
    (t t1 : Trace) (items : JSValue) (markets : list FetchedMorphoMarket) :
  truthy_string (q_loanAssetAddress q) = Some address ->
  fetchMorphoMarketsAPI w (route_variables q address) t = (Normal items, t1) ->
  as_array FetchedMorphoMarket_of items = Some markets ->
  snd (get_markets w q t)
  = (t1 ++ List.map
             (fun market =>
                ChainCall INTEREST_RATE_MODEL_ADDRESS (buildMarketParams market)
                  (buildMarketStruct w market))
             markets)%list.
Proof.
  intros Haddress Hfetch Hitems.
  destruct (as_array_inv _ _ _ Hitems) as (elems & -> & Htraverse).
  destruct (transform_each w markets t1) as (out & Hrun & _).
  assert (Htransform :
            transform_all w (JArr elems) t1
            = (Normal out, (t1 ++ List.map (chain_event w) markets)%list)).
  { unfold transform_all.
    rewrite (transform_elements_typed w elems markets t1 Htraverse). exact Hrun. }
  rewrite (route_succeeds w q t address (JArr elems) out t1 _
             Haddress Hfetch Htransform).
  reflexivity.
Qed.

Lemma one_chain_call_per_market_witness :
  List.length
    (List.filter is_chain_call
       (snd (get_markets
               (Sample.world (Sample.responds 200 Sample.three_markets) (Normal tt)
                  Sample.second_call_reverts)
               (Sample.query_for Sample.USDC None) [])))
  = 3%nat.
Proof.
  assert (Haddress :
            truthy_string (q_loanAssetAddress (Sample.query_for Sample.USDC None))
            = Some Sample.USDC) by reflexivity.
  assert (Hfetch :
            fetchMorphoMarketsAPI
              (Sample.world (Sample.responds 200 Sample.three_markets) (Normal tt)
                 Sample.second_call_reverts)
              (route_variables (Sample.query_for Sample.USDC None) Sample.USDC) []
            = (Normal (Sample.items_of Sample.three_markets),
               [GraphQLCall
                  (graphql_request
                     (route_variables (Sample.query_for Sample.USDC None) Sample.USDC));
                FileWrite RAW_RESPONSE_FILE Sample.three_markets]))
    by (vm_compute; reflexivity).
  assert (Hitems :
            as_array FetchedMorphoMarket_of (Sample.items_of Sample.three_markets)
            = Some Sample.markets) by (vm_compute; reflexivity).
  rewrite (one_chain_call_per_market _ _ _ [] _ _ _ Haddress Hfetch Hitems).
  reflexivity.
Defined.

(** ** The enricher and the transformer, field by field *)

(** X8.  The enricher never throws and makes one call, to the contract at
    [INTEREST_RATE_MODEL_ADDRESS].  The parameters of the call carry the loan
    asset's address, the oracle, the rate model and the loan-to-value ratio of
    the market; the collateral token is the collateral asset's address, or
    the zero address when the market has no collateral asset or when that
    address is empty.  The state of the call carries the four amounts of the
    market's state as they are, and its time stamp and fee rendered as
    strings. *)
Theorem enricher_call (w : World) (market : FetchedMorphoMarket) (t : Trace) :
  exists (rate : option string) (p : MarketParams) (s : MarketStruct),
    getBorrowRateFromContract w market t
    = (Normal rate, (t ++ [ChainCall INTEREST_RATE_MODEL_ADDRESS p s])%list)
    /\ loanToken p = loan_address (loanAsset market)
    /\ oracle p = oracleAddress market
    /\ irm p = irmAddress market
    /\ params_lltv p = lltv market
    /\ (collateralAsset market = None ->
        collateralToken p = "0x0000000000000000000000000000000000000000")
    /\ (forall c : MarketCollateralAsset,
          collateralAsset market = Some c -> collateral_address c = "" ->
          collateralToken p = "0x0000000000000000000000000000000000000000")
    /\ (forall c : MarketCollateralAsset,
          collateralAsset market = Some c -> collateral_address c <> "" ->
          collateralToken p = collateral_address c)
    /\ totalSupplyAssets s = supplyAssets (state market)
    /\ totalSupplyShares s = supplyShares (state market)
    /\ totalBorrowAssets s = borrowAssets (state market)
    /\ totalBorrowShares s = borrowShares (state market)
    /\ lastUpdate s = Number_toString w (timestamp (state market))
    /\ struct_fee s = Number_toString w (fee (state market)).
Proof.
  destruct (getBorrowRateFromContract_returns w market t) as [rate Hrate].
  exists rate, (buildMarketParams market), (buildMarketStruct w market).
  split; [exact Hrate |].
  unfold buildMarketParams, buildMarketStruct, collateral_address_or_zero. cbn.
  repeat split.
  - intros H. rewrite H. reflexivity.
  - intros c H Hempty. rewrite H, Hempty. reflexivity.
  - intros c H Hne. rewrite H.
    destruct (collateral_address c) as [| a rest];
      [contradiction Hne; reflexivity | reflexivity].
Qed.

Lemma enricher_call_witness :
  exists (rate : option string) (p : MarketParams) (s : MarketStruct),
    getBorrowRateFromContract
      (Sample.world (Sample.responds 200 Sample.three_markets) (Normal tt)
         Sample.second_call_reverts)
      (Sample.market "0x7dde" None) []
    = (Normal rate, [ChainCall INTEREST_RATE_MODEL_ADDRESS p s])
    /\ collateralToken p = "0x0000000000000000000000000000000000000000".
Proof.
  destruct (enricher_call
              (Sample.world (Sample.responds 200 Sample.three_markets) (Normal tt)
                 Sample.second_call_reverts)
              (Sample.market "0x7dde" None) [])
    as (rate & p & s & Hrun & _ & _ & _ & _ & Hnone & _).
  exists rate, p, s. split; [exact Hrun |].
  apply Hnone. reflexivity.
Defined.

(** X9.  The chain node decides [rate_per_second] and nothing else: the
    outputs the transformer makes of one market on two chain nodes are equal
    in every other field. *)
Theorem chain_node_decides_the_rate_only (w : World)
    (f : nat -> MarketParams -> MarketStruct -> Completion N)
    (market : FetchedMorphoMarket) (t t' : Trace) :
  exists o o' : MarketOutputForCalculator,
    fst (transformMarketData w market t) = Normal o
    /\ fst (transformMarketData (with_borrowRateView w f) market t') = Normal o'
    /\ o' = with_rate o (rate_per_second o').
Proof.
  unfold transformMarketData, getBorrowRateFromContract, contract_borrowRateView,
    try_catch, bind, ret.
  cbn [borrowRateView with_borrowRateView].
  change (buildMarketStruct (with_borrowRateView w f) market)
    with (buildMarketStruct w market).
  destruct (borrowRateView w (chain_calls t) (buildMarketParams market)
              (buildMarketStruct w market));
    destruct (f (chain_calls t') (buildMarketParams market)
                (buildMarketStruct w market));
    eexists; eexists; (split; [reflexivity | split; reflexivity]).
Qed.

(** X10.  A chain call that resolves with the rate [r] gives
    [rate_per_second] the decimal digits of [r]; and a call that throws gives
    the same output as a call that resolves with the rate zero. *)
Theorem failed_call_reads_as_zero_rate (w : World) (market : FetchedMorphoMarket)
    (t : Trace) :
  (forall r : N,
      chain_outcome w (chain_calls t) market = Normal r ->
      exists (o : MarketOutputForCalculator) (t' : Trace),
        transformMarketData w market t = (Normal o, t')
        /\ rate_per_second o = BigNumber_toString r)
  /\ (forall (e : JsError) (f : nat -> MarketParams -> MarketStruct -> Completion N),
        chain_outcome w (chain_calls t) market = Throw e ->
        f (chain_calls t) (buildMarketParams market) (buildMarketStruct w market)
        = Normal 0%N ->
        transformMarketData (with_borrowRateView w f) market t
        = transformMarketData w market t).
Proof.
  split.
  - intros r Hr.
    destruct (transformMarketData_returns w market t) as [o Hrun].
    exists o, (t ++ [chain_event w market])%list. split; [exact Hrun |].
    pose proof (getBorrowRateFromContract_resolves w market t r Hr) as Hrate.
    destruct (transformMarketData_after_enrich w market t _ _ o Hrate Hrun)
      as (_ & _ & _ & _ & _ & _ & _ & _ & _ & Hper).
    exact Hper.
  - intros e f He Hf. unfold chain_outcome in He.
    unfold transformMarketData, getBorrowRateFromContract, contract_borrowRateView,
      try_catch, bind, ret.
    cbn [borrowRateView with_borrowRateView].
    change (buildMarketStruct (with_borrowRateView w f) market)
      with (buildMarketStruct w market).
    rewrite He, Hf. reflexivity.
Qed.

Lemma failed_call_reads_as_zero_rate_witness :
  (exists (o : MarketOutputForCalculator) (t' : Trace),
      transformMarketData
        (Sample.world (Sample.responds 200 Sample.three_markets) (Normal tt)
           Sample.second_call_reverts)
        (Sample.market "0xb323" (Some Sample.WETH)) [] = (Normal o, t')
      /\ rate_per_second o = "1268391679")
  /\ transformMarketData
       (with_borrowRateView
          (Sample.world (Sample.responds 200 Sample.three_markets) (Normal tt)
             Sample.every_call_reverts)
          (fun _ _ _ => Normal 0%N))
       (Sample.market "0xb323" (Some Sample.WETH)) []
     = transformMarketData
         (Sample.world (Sample.responds 200 Sample.three_markets) (Normal tt)
            Sample.every_call_reverts)
         (Sample.market "0xb323" (Some Sample.WETH)) [].
Proof.
  split.
  - apply (proj1 (failed_call_reads_as_zero_rate
                    (Sample.world (Sample.responds 200 Sample.three_markets) (Normal tt)
                       Sample.second_call_reverts)
                    (Sample.market "0xb323" (Some Sample.WETH)) [])
             1268391679%N).
    reflexivity.
  - apply (proj2 (failed_call_reads_as_zero_rate
                    (Sample.world (Sample.responds 200 Sample.three_markets) (Normal tt)
                       Sample.every_call_reverts)
                    (Sample.market "0xb323" (Some Sample.WETH)) [])
             (NativeError "call revert exception") (fun _ _ _ => Normal 0%N));
      reflexivity.
Defined.

Lemma transformMarketData_output (w : World) (market : FetchedMorphoMarket) (t : Trace) :
  exists (o : MarketOutputForCalculator) (t' : Trace),
    transformMarketData w market t = (Normal o, t')
    /\ network o = network_or_unknown (chain (loanAsset market))
    /\ source o = "Morpho " ++ network_or_unknown (chain (loanAsset market))
    /\ token_price o = Number w (loan_priceUsd (loanAsset market))
    /\ fee_percentage o = fee (state market)
    /\ yearlySupplyTokens o
       = match first_reward (rewards (state market)) with
         | Some r => reward_yearlySupplyTokens r
         | None => "0"
         end
    /\ rewardTokenDecimals o
       = match first_reward (rewards (state market)) with
         | Some r => reward_decimals (asset r)
         | None => 18%float
         end
    /\ rewardTokenPriceUsd o
       = match first_reward (rewards (state market)) with
         | Some r => reward_priceUsd (asset r)
         | None => "0"
         end.
Proof.
  destruct (getBorrowRateFromContract_returns w market t) as [rate Hrate].
  unfold transformMarketData. rewrite (bind_normal _ _ _ _ _ Hrate). unfold ret.
  eexists. eexists. split; [reflexivity |]. cbn. repeat split; reflexivity.
Qed.

(** X11.  The reward fields of a transformed market.  Without reward
    entries, whether the list is absent or empty, they are the defaults
    ["0"], [18] and ["0"]; otherwise they are the yearly supply tokens, the
    asset decimals and the asset price of the first entry, and the other
    entries are ignored. *)
Theorem reward_fields (w : World) (market : FetchedMorphoMarket) (t : Trace) :
  exists (o : MarketOutputForCalculator) (t' : Trace),
    transformMarketData w market t = (Normal o, t')
    /\ (rewards (state market) = None \/ rewards (state market) = Some [] ->
        yearlySupplyTokens o = "0"
        /\ rewardTokenDecimals o = 18%float
        /\ rewardTokenPriceUsd o = "0")
    /\ (forall (r : MarketRewardsInfo) (others : list MarketRewardsInfo),
          rewards (state market) = Some (r :: others) ->
          yearlySupplyTokens o = reward_yearlySupplyTokens r
          /\ rewardTokenDecimals o = reward_decimals (asset r)
          /\ rewardTokenPriceUsd o = reward_priceUsd (asset r)).
Proof.
  destruct (transformMarketData_output w market t)
    as (o & t' & Hrun & _ & _ & _ & _ & Hy & Hd & Hp).
  exists o, t'. split; [exact Hrun | split].
  - intros [H | H]; rewrite H in Hy, Hd, Hp; repeat split; assumption.
  - intros r others H. rewrite H in Hy, Hd, Hp. repeat split; assumption.
Qed.

Lemma reward_fields_witness :
  (exists (o : MarketOutputForCalculator) (t' : Trace),
      transformMarketData
        (Sample.world (Sample.responds 200 Sample.three_markets) (Normal tt)
           Sample.second_call_reverts)
        Sample.rewarded_market [] = (Normal o, t')
      /\ yearlySupplyTokens o = "31536000000000000000000"
      /\ rewardTokenDecimals o = 18%float
      /\ rewardTokenPriceUsd o = "1.25")
  /\ (exists (o : MarketOutputForCalculator) (t' : Trace),
      transformMarketData
        (Sample.world (Sample.responds 200 Sample.three_markets) (Normal tt)
           Sample.second_call_reverts)
        (Sample.market "0x7dde" None) [] = (Normal o, t')
      /\ yearlySupplyTokens o = "0"
      /\ rewardTokenDecimals o = 18%float
      /\ rewardTokenPriceUsd o = "0").
Proof.
  split.
  - destruct (reward_fields
                (Sample.world (Sample.responds 200 Sample.three_markets) (Normal tt)
                   Sample.second_call_reverts)
                Sample.rewarded_market [])
      as (o & t' & Hrun & _ & Hfirst).
    exists o, t'. split; [exact Hrun |].
    exact (Hfirst _ _ eq_refl).
  - destruct (reward_fields
                (Sample.world (Sample.responds 200 Sample.three_markets) (Normal tt)
                   Sample.second_call_reverts)
                (Sample.market "0x7dde" None) [])
      as (o & t' & Hrun & Hnone & _).
    exists o, t'. split; [exact Hrun |].
    apply Hnone. right. reflexivity.
Defined.

(** X12.  The network of a transformed market is the network of the loan
    asset's chain; when the loan asset has no chain, or the network is the
    empty string, it is ["Unknown"], and [source] is ["Morpho Unknown"].  The
    token price is the loan asset's price read as a number and the fee is the
    fee of the state, unchanged. *)
Theorem network_price_and_fee (w : World) (market : FetchedMorphoMarket) (t : Trace) :
  exists (o : MarketOutputForCalculator) (t' : Trace),
    transformMarketData w market t = (Normal o, t')
    /\ (forall c : MarketChainInfo,
          chain (loanAsset market) = Some c -> chain_network c <> "" ->
          network o = chain_network c /\ source o = "Morpho " ++ chain_network c)
    /\ (chain (loanAsset market) = None
        \/ chain (loanAsset market) = Some {| chain_network := "" |} ->
        network o = "Unknown" /\ source o = "Morpho Unknown")
    /\ token_price o = Number w (loan_priceUsd (loanAsset market))
    /\ fee_percentage o = fee (state market).
Proof.
  destruct (transformMarketData_output w market t)
    as (o & t' & Hrun & Hnet & Hsrc & Hprice & Hfee & _).
  exists o, t'. split; [exact Hrun |].
  split; [| split; [| split; assumption]].
  - intros c Hc Hne. rewrite Hnet, Hsrc, Hc. cbn.
    destruct (chain_network c) as [| a rest];
      [contradiction Hne; reflexivity | split; reflexivity].
  - intros [Hc | Hc]; rewrite Hnet, Hsrc, Hc; split; reflexivity.
Qed.

Lemma network_price_and_fee_witness :
  (exists (o : MarketOutputForCalculator) (t' : Trace),
      transformMarketData
        (Sample.world (Sample.responds 200 Sample.three_markets) (Normal tt)
           Sample.second_call_reverts)
        Sample.chainless_market [] = (Normal o, t')
      /\ network o = "Unknown" /\ source o = "Morpho Unknown")
  /\ (exists (o : MarketOutputForCalculator) (t' : Trace),
      transformMarketData
        (Sample.world (Sample.responds 200 Sample.three_markets) (Normal tt)
           Sample.second_call_reverts)
        (Sample.market "0x7dde" None) [] = (Normal o, t')
      /\ network o = "ethereum" /\ source o = "Morpho ethereum").
Proof.
  split.
  - destruct (network_price_and_fee
                (Sample.world (Sample.responds 200 Sample.three_markets) (Normal tt)
                   Sample.second_call_reverts)
                Sample.chainless_market [])
      as (o & t' & Hrun & _ & Hunknown & _).
    exists o, t'. split; [exact Hrun |].
    apply Hunknown. left. reflexivity.
  - destruct (network_price_and_fee
                (Sample.world (Sample.responds 200 Sample.three_markets) (Normal tt)
                   Sample.second_call_reverts)
                (Sample.market "0x7dde" None) [])
      as (o & t' & Hrun & Hknown & _).
    exists o, t'. split; [exact Hrun |].
    apply (Hknown {| chain_network := "ethereum" |}); [reflexivity | discriminate].
Defined.

(** ** The query parameters *)



Lemma orderBy_of_route_variables (q : RequestQuery) (address : string) :
  orderBy (route_variables q address) = truthy_string (q_orderBy q).
Proof.
  unfold route_variables, handle_orderBy, handle_first.
  destruct (truthy_string (q_orderBy q)) as [o |];
    destruct (truthy_string (q_first q)) as [s |]; try reflexivity;
    destruct (parseInt s) as [n |]; try reflexivity;
    destruct (0 <? n); reflexivity.
Qed.

(** X14.  The ordering key is forwarded as it is given, without
    validation, whenever it is a non-empty string; a key that is absent,
    empty or not a string is left out of the outbound variables, and there is
    no default. *)
Theorem ordering_key_is_forwarded (w : World) (q : RequestQuery) (address : string)
    (t : Trace) :
  truthy_string (q_loanAssetAddress q) = Some address ->
  exists (req : GraphQLRequest) (rest : Trace),
    snd (get_markets w q t) = (t ++ GraphQLCall req :: rest)%list
    /\ List.filter is_graphql_call rest = []
    /\ (forall s : string,
          q_orderBy q = Some (QString s) -> s <> "" ->
          orderBy (variables req) = Some s)
    /\ (q_orderBy q = None \/ q_orderBy q = Some (QString "")
        \/ (exists v : QueryValue,
              q_orderBy q = Some v /\ forall s : string, v <> QString s) ->
        orderBy (variables req) = None).
Proof.
  intros Haddress.
  destruct (route_trace w q address t Haddress) as (rest & Htrace & Hrest).
  exists (graphql_request (route_variables q address)), rest.
  split; [exact Htrace | split; [exact Hrest |]].
  cbn [variables graphql_request]. rewrite orderBy_of_route_variables.
  split.
  - intros s Hs Hne. rewrite Hs. apply truthy_string_of_nonempty. exact Hne.
  - intros [H | [H | (v & H & Hnot)]]; rewrite H; try reflexivity.
    destruct v as [s | vs | fs]; try reflexivity.
    contradiction (Hnot s). reflexivity.
Qed.

Lemma ordering_key_is_forwarded_witness :
  exists (req : GraphQLRequest) (rest : Trace),
    snd (get_markets
           (Sample.world (Sample.responds 200 Sample.three_markets) (Normal tt)
              Sample.second_call_reverts)
           {| q_loanAssetAddress := Some (QString Sample.USDC);
              q_first := None;
              q_orderBy := Some (QString "SupplyApy") |} [])
    = GraphQLCall req :: rest
    /\ orderBy (variables req) = Some "SupplyApy".
Proof.
  destruct (ordering_key_is_forwarded
              (Sample.world (Sample.responds 200 Sample.three_markets) (Normal tt)
                 Sample.second_call_reverts)
              {| q_loanAssetAddress := Some (QString Sample.USDC);
                 q_first := None;
                 q_orderBy := Some (QString "SupplyApy") |} Sample.USDC [] eq_refl)
    as (req & rest & Htrace & _ & Hforward & _).
  exists req, rest. split; [exact Htrace |].
  apply Hforward; [reflexivity | discriminate].
Defined.

(** X15.  A [loanAssetAddress] that is present but empty is refused like
    a missing one: status 400, the same body, and no outbound call. *)
Theorem empty_address_is_rejected (w : World) (q : RequestQuery) (t : Trace) :
  q_loanAssetAddress q = Some (QString "") ->
  get_markets w q t
  = (Normal {| res_status := 400;
               res_body := JsonValue
                 (JObj [("error",
                         JStr "Missing or invalid required query parameter: loanAssetAddress")]) |},
     t).
Proof.
  intros H. apply route_bad_request. rewrite H. reflexivity.
Qed.

Lemma empty_address_is_rejected_witness :
  get_markets
    (Sample.world (Sample.responds 200 Sample.three_markets) (Normal tt)
       Sample.second_call_reverts)
    (Sample.query_for "" (Some "5")) []
  = (Normal {| res_status := 400;
               res_body := JsonValue
                 (JObj [("error",
                         JStr "Missing or invalid required query parameter: loanAssetAddress")]) |},
     []).
Proof.
  apply empty_address_is_rejected. reflexivity.
Defined.

(** ** The route and the diagnostic file *)

Lemma transform_elements_write_no_file (w : World) (elems : list JSValue) :
  forall t : Trace,
  exists rest : Trace,
    snd (Promise_all_map (transform_element w) elems t) = (t ++ rest)%list
    /\ List.filter is_file_write rest = [].
Proof.
  induction elems as [| v more IH]; intros t.
  - exists []. cbn. rewrite List.app_nil_r. split; reflexivity.
  - cbn [Promise_all_map]. unfold transform_element at 1.
    destruct (FetchedMorphoMarket_of v) as [m |].
    + destruct (transformMarketData_returns w m t) as [o Ho]. rewrite Ho.
      destruct (IH (t ++ [chain_event w m])%list) as (rest & Hrest & Hnone).
      destruct (Promise_all_map (transform_element w) more (t ++ [chain_event w m])%list)
        as [rs t2].
      cbn [snd] in *. subst t2.
      exists (chain_event w m :: rest). rewrite <- List.app_assoc.
      split; [reflexivity | exact Hnone].
    + unfold throw.
      destruct (IH t) as (rest & Hrest & Hnone).
      destruct (Promise_all_map (transform_element w) more t) as [rs t2].
      cbn [snd] in *. subst t2.
      exists rest. split; [reflexivity | exact Hnone].
Qed.

Lemma transform_all_writes_no_file (w : World) (items : JSValue) (t : Trace) :
  exists rest : Trace,
    snd (transform_all w items t) = (t ++ rest)%list
    /\ List.filter is_file_write rest = [].
Proof.
  assert (Hnone : exists rest : Trace,
             t = (t ++ rest)%list /\ List.filter is_file_write rest = []).
  { exists []. rewrite List.app_nil_r. split; reflexivity. }
  destruct items as [| b | x | s | elems | fields]; try exact Hnone.
  apply transform_elements_write_no_file.
Qed.

(** X16.  A request writes the diagnostic file at most once: exactly once,
    with the body as it was received, when the transport delivered a body,
    and not at all when [fetch] rejected or the body could not be read. *)
Theorem diagnostic_file_is_written_once (w : World) (q : RequestQuery)
    (address : string) (t : Trace) :
  truthy_string (q_loanAssetAddress q) = Some address ->
  exists events : Trace,
    snd (get_markets w q t) = (t ++ events)%list
    /\ List.filter is_file_write events
       = match fetch w (graphql_request (route_variables q address)) with
         | Normal response =>
             match resp_text response with
             | Normal text => [FileWrite RAW_RESPONSE_FILE text]
             | Throw _ => []
             end
         | Throw _ => []
         end.
Proof.
  intros Haddress.
  set (req := graphql_request (route_variables q address)).
  assert (Hfetched : exists events : Trace,
             snd (fetchMorphoMarketsAPI w (route_variables q address) t)
             = (t ++ events)%list
             /\ List.filter is_file_write events
                = match fetch w req with
                  | Normal response =>
                      match resp_text response with
                      | Normal text => [FileWrite RAW_RESPONSE_FILE text]
                      | Throw _ => []
                      end
                  | Throw _ => []
                  end).
  { destruct (fetch w req) as [response | e] eqn:Hfetch.
    2: { rewrite (fetch_rejected w _ t e Hfetch).
         exists [GraphQLCall req]. split; reflexivity. }
    destruct (resp_text response) as [text | e] eqn:Htext.
    2: { rewrite (fetch_body_unreadable w _ t response e Hfetch Htext).
         exists [GraphQLCall req]. split; reflexivity. }
    rewrite (fetch_trace_after_body w _ t response text Hfetch Htext).
    exists [GraphQLCall req; FileWrite RAW_RESPONSE_FILE text]. split; reflexivity. }
  destruct Hfetched as (events & Htrace & Hwrites).
  destruct (fetchMorphoMarketsAPI w (route_variables q address) t)
    as [[items | e] t1] eqn:Hrun; cbn [snd] in Htrace; subst t1.
  - destruct (transform_all_writes_no_file w items (t ++ events)%list)
      as (rest & Hrest & Hnone).
    exists (events ++ rest)%list. split.
    + destruct (transform_all w items (t ++ events)%list) as [[out | e] t2] eqn:Htransform;
        cbn [snd] in Hrest; subst t2.
      * rewrite (route_succeeds w q t address items out _ _ Haddress Hrun Htransform).
        cbn [snd]. rewrite <- List.app_assoc. reflexivity.
      * rewrite (route_transform_failed w q t address items e _ _
                   Haddress Hrun Htransform).
        cbn [snd]. rewrite <- List.app_assoc. reflexivity.
    + rewrite List.filter_app, Hnone, List.app_nil_r. exact Hwrites.
  - exists events. split; [| exact Hwrites].
    rewrite (route_fetch_failed w q t address e _ Haddress Hrun). reflexivity.
Qed.

Lemma diagnostic_file_is_written_once_witness :
  exists events : Trace,
    snd (get_markets
           (Sample.world (Sample.responds 200 Sample.three_markets) (Normal tt)
              Sample.second_call_reverts)
           (Sample.query_for Sample.USDC None) [])
    = events
    /\ List.filter is_file_write events
       = [FileWrite RAW_RESPONSE_FILE Sample.three_markets].
Proof.
  destruct (diagnostic_file_is_written_once
              (Sample.world (Sample.responds 200 Sample.three_markets) (Normal tt)
                 Sample.second_call_reverts)
              (Sample.query_for Sample.USDC None) Sample.USDC [] eq_refl)
    as (events & Htrace & Hwrites).
  exists events. split; [exact Htrace | exact Hwrites].
Defined.

(** X17.  The response of the route, and its events, are the same
    whatever the file system does with the diagnostic file: a write that
    fails is invisible to the client. *)
Theorem route_ignores_the_file_system (w : World)
    (f : string -> string -> Completion unit) (q : RequestQuery) (t : Trace) :
  get_markets (with_writeFileSync w f) q t = get_markets w q t.
Proof.
  unfold get_markets, try_catch, bind.
  destruct (truthy_string (q_loanAssetAddress q)) as [address |]; [| reflexivity].
  rewrite fetch_ignores_the_file_system.
  change (transform_all (with_writeFileSync w f)) with (transform_all w).
  reflexivity.
Qed.

(** ** What every failure looks like *)

(** Whatever the fetcher catches, what it throws has a status that is not
    zero and either truthy details or a non-empty raw response. *)
Lemma rethrown_is_diagnosable (e : JsError) :
  status_truthy (status (rethrown e)) = true
  /\ (truthy_opt (details (rethrown e)) = true
      \/ string_truthy (rawResponse (rethrown e)) = true).
Proof.
  unfold rethrown.
  destruct (status_truthy (status e)) eqn:Hs; cbn [andb].
  - destruct (truthy_opt (details e)) eqn:Hd.
    + split; [exact Hs | left; exact Hd].
    + destruct (string_truthy (rawResponse e)) eqn:Hr.
      * split; [exact Hs | right; exact Hr].
      * cbn. unfold status_or_500, message_or_self. split.
        -- destruct (status e) as [n |]; [| reflexivity].
           destruct (n =? 0) eqn:Hn; [reflexivity | rewrite Hn; reflexivity].
        -- left. destruct (message e) as [m |]; [| reflexivity].
           destruct m; reflexivity.
  - cbn. unfold status_or_500, message_or_self. split.
    + destruct (status e) as [n |]; [| reflexivity].
      destruct (n =? 0) eqn:Hn; [reflexivity | rewrite Hn; reflexivity].
    + left. destruct (message e) as [m |]; [| reflexivity].
      destruct m; reflexivity.
Qed.

Lemma fetch_throws_inv (w : World) (vars : FetchMarketsVariables) (t t1 : Trace)
    (e : JsError) :
  fetchMorphoMarketsAPI w vars t = (Throw e, t1) ->
  exists caught : JsError, e = rethrown caught.
Proof.
  intros Hrun.
  destruct (fetch w (graphql_request vars)) as [response | e0] eqn:Hfetch.
  2: { rewrite (fetch_rejected w vars t e0 Hfetch) in Hrun.
       injection Hrun as <- _. eexists. reflexivity. }
  destruct (resp_text response) as [text | e0] eqn:Htext.
  2: { rewrite (fetch_body_unreadable w vars t response e0 Hfetch Htext) in Hrun.
       injection Hrun as <- _. eexists. reflexivity. }
  destruct (ok response) eqn:Hok.
  2: { rewrite (fetch_not_ok w vars t response text Hfetch Htext Hok) in Hrun.
       injection Hrun as <- _. eexists. reflexivity. }
  destruct (JSON_parse w text) as [result | e0] eqn:Hparse.
  2: { rewrite (fetch_not_json w vars t response text e0 Hfetch Htext Hok Hparse) in Hrun.
       injection Hrun as <- _. eexists. reflexivity. }
  destruct (data_markets_items result) as [found | e0] eqn:Hitems.
  2: { rewrite (fetch_payload_null w vars t response text result e0
                  Hfetch Htext Hok Hparse Hitems) in Hrun.
       injection Hrun as <- _. eexists. reflexivity. }
  destruct (truthy_opt found) eqn:Htruthy.
  - destruct found as [v |]; [| discriminate Htruthy].
    rewrite (fetch_with_items w vars t response text result v
               Hfetch Htext Hok Hparse Hitems Htruthy) in Hrun.
    discriminate Hrun.
  - rewrite (fetch_without_items w vars t response text result found
               Hfetch Htext Hok Hparse Hitems Htruthy) in Hrun.
    injection Hrun as <- _. eexists. reflexivity.
Qed.

(** X18.  Every error the fetcher throws carries a status that is not
    zero and a diagnostic payload, truthy details or a non-empty raw response.
    So whenever the fetch of a request fails, the route answers with the
    status of the error, never with a defaulted one, the [details] of the
    answer are never [null], and the chain node is not called. *)
Theorem failed_fetch_is_reported (w : World) (q : RequestQuery) (address : string)
    (t t1 : Trace) (e : JsError) :
  truthy_string (q_loanAssetAddress q) = Some address ->
  fetchMorphoMarketsAPI w (route_variables q address) t = (Throw e, t1) ->
  exists (code : Z) (d : JSValue),
    status e = Some code
    /\ code <> 0
    /\ (truthy_opt (details e) = true \/ string_truthy (rawResponse e) = true)
    /\ truthy d = true
    /\ get_markets w q t
       = (Normal {| res_status := code;
                    res_body := JsonValue
                      (JObj [("error", JStr (message_or_default e));
                             ("details", d)]) |},
          t1)
    /\ chain_calls t1 = chain_calls t.
Proof.
  intros Haddress Hrun.
  destruct (fetch_throws_inv w _ t t1 e Hrun) as (caught & ->).
  destruct (rethrown_is_diagnosable caught) as (Hstatus & Hpayload).
  set (e := rethrown caught) in *.
  destruct (status e) as [code |] eqn:Hcode; [| discriminate Hstatus].
  assert (Hnz : code <> 0).
  { cbn in Hstatus. intros ->. discriminate Hstatus. }
  exists code, (response_details e).
  split; [reflexivity | split; [exact Hnz | split; [exact Hpayload |]]].
  split; [| split].
  - unfold response_details.
    destruct Hpayload as [Hd | Hr].
    + destruct (details e) as [d |]; [| discriminate Hd].
      cbn in Hd. rewrite Hd. exact Hd.
    + destruct (rawResponse e) as [raw |]; [| discriminate Hr].
      cbn in Hr. rewrite Hr.
      destruct (details e) as [d |]; [| reflexivity].
      destruct (truthy d) eqn:Hd; [exact Hd | reflexivity].
  - rewrite (route_fetch_failed w q t address e t1 Haddress Hrun).
    unfold error_response, status_or_500. rewrite Hcode.
    destruct (Z.eqb_spec code 0) as [H0 | _]; [contradiction Hnz | reflexivity].
  - destruct (fetch_trace w (route_variables q address) t) as (rest & Htrace & _ & Hchain).
    rewrite Hrun in Htrace. cbn [snd] in Htrace. subst t1.
    unfold chain_calls. rewrite List.filter_app. cbn [List.filter is_chain_call].
    rewrite Hchain, List.app_nil_r. reflexivity.
Qed.

Lemma failed_fetch_is_reported_witness :
  exists (code : Z) (d : JSValue),
    code <> 0
    /\ truthy d = true
    /\ fst (get_markets
              (Sample.world (Sample.responds 200 "false") (Normal tt)
                 Sample.second_call_reverts)
              (Sample.query_for Sample.USDC None) [])
       = Normal {| res_status := code;
                   res_body := JsonValue
                     (JObj [("error", JStr "Failed to fetch or parse data from Morpho API.");
                            ("details", d)]) |}.
Proof.
  assert (Haddress :
            truthy_string (q_loanAssetAddress (Sample.query_for Sample.USDC None))
            = Some Sample.USDC) by reflexivity.
  assert (Hrun :
            fetchMorphoMarketsAPI
              (Sample.world (Sample.responds 200 "false") (Normal tt)
                 Sample.second_call_reverts)
              (route_variables (Sample.query_for Sample.USDC None) Sample.USDC) []
            = (Throw (failed_fetch_error 500
                        (JStr "GraphQL query successful but data not in expected structure")),
               [GraphQLCall
                  (graphql_request
                     (route_variables (Sample.query_for Sample.USDC None) Sample.USDC));
                FileWrite RAW_RESPONSE_FILE "false"]))
    by (vm_compute; reflexivity).
  destruct (failed_fetch_is_reported _ _ _ [] _ _ Haddress Hrun)
    as (code & d & _ & Hnz & _ & Htruthy & Hresponse & _).
  exists code, d. split; [exact Hnz | split; [exact Htruthy |]].
  rewrite Hresponse. reflexivity.
Defined.

Lemma message_or_default_nonempty (e : JsError) : message_or_default e <> "".
Proof.
  unfold message_or_default.
  destruct (message e) as [m |]; [| discriminate].
  destruct m; discriminate.
Qed.

Lemma status_or_500_nonzero (e : JsError) : status_or_500 e <> 0.
Proof.
  unfold status_or_500.
  destruct (status e) as [n |]; [| discriminate].
  destruct (Z.eqb_spec n 0) as [_ | Hn]; [discriminate | exact Hn].
Qed.

(** X19.  The route never rejects: whatever the world does, it sends one
    of three responses.  It refuses the request with 400 before any outbound
    call, or answers 200 with the transformed markets, or answers with an
    error body [{error, details}] whose status is not zero and whose error
    message is not empty. *)
Theorem route_always_responds (w : World) (q : RequestQuery) (t : Trace) :
  exists (r : ExpressResponse) (t' : Trace),
    get_markets w q t = (Normal r, t')
    /\ ((r = {| res_status := 400;
                res_body := JsonValue
                  (JObj [("error",
                          JStr "Missing or invalid required query parameter: loanAssetAddress")]) |}
         /\ t' = t)
        \/ (exists out : list MarketOutputForCalculator,
              r = {| res_status := 200; res_body := JsonMarkets out |})
        \/ (exists (code : Z) (error : string) (d : JSValue),
              r = {| res_status := code;
                     res_body := JsonValue (JObj [("error", JStr error); ("details", d)]) |}
              /\ code <> 0
              /\ error <> "")).
Proof.
  destruct (truthy_string (q_loanAssetAddress q)) as [address |] eqn:Haddress.
  2: { exists BAD_REQUEST, t. split; [apply route_bad_request; exact Haddress |].
       left. split; reflexivity. }
  assert (Herror : forall e : JsError,
             exists (code : Z) (error : string) (d : JSValue),
               error_response e
               = {| res_status := code;
                    res_body := JsonValue (JObj [("error", JStr error); ("details", d)]) |}
               /\ code <> 0 /\ error <> "").
  { intros e. exists (status_or_500 e), (message_or_default e), (response_details e).
    split; [reflexivity | split].
    - apply status_or_500_nonzero.
    - apply message_or_default_nonempty. }
  destruct (fetchMorphoMarketsAPI w (route_variables q address) t)
    as [[items | e] t1] eqn:Hrun.
  - destruct (transform_all w items t1) as [[out | e] t2] eqn:Htransform.
    + exists {| res_status := 200; res_body := JsonMarkets out |}, t2.
      split; [apply (route_succeeds w q t address items out t1 t2); assumption |].
      right. left. exists out. reflexivity.
    + exists (error_response e), t2.
      split; [apply (route_transform_failed w q t address items e t1 t2); assumption |].
      right. right. apply Herror.
  - exists (error_response e), t1.
    split; [apply (route_fetch_failed w q t address e t1); assumption |].
    right. right. apply Herror.
Qed.

(** ** What the fetcher returns and what it sends *)

(** X20.  The fetcher returns a value only when the transport status was
    in 200..299, the body parsed as JSON, and the value is the truthy
    [data.markets.items] of the parsed payload: a response with another
    status never yields markets, whatever its body holds.  Its events are
    then the request and the write of the body. *)
Theorem fetcher_returns_only_checked_items (w : World) (vars : FetchMarketsVariables)
    (t t1 : Trace) (items : JSValue) :
  fetchMorphoMarketsAPI w vars t = (Normal items, t1) ->
  exists (response : HttpResponse) (text : string) (result : JSValue),
    fetch w (graphql_request vars) = Normal response
    /\ 200 <= resp_status response <= 299
    /\ resp_text response = Normal text
    /\ JSON_parse w text = Normal result
    /\ data_markets_items result = Normal (Some items)
    /\ truthy items = true
    /\ t1 = (t ++ [GraphQLCall (graphql_request vars);
                   FileWrite RAW_RESPONSE_FILE text])%list.
Proof.
  intros Hrun.
  destruct (fetch_returns_inv w vars t t1 items Hrun)
    as (response & text & result & Hfetch & Htext & Hok & Hparse & Hitems & Htruthy & Ht1).
  exists response, text, result.
  unfold ok in Hok. apply andb_true_iff in Hok. destruct Hok as [Hlo Hhi].
  apply Z.leb_le in Hlo. apply Z.leb_le in Hhi.
  repeat split; assumption.
Qed.

Lemma fetcher_returns_only_checked_items_witness :
  exists (response : HttpResponse) (text : string) (result : JSValue),
    fetch (Sample.world
             (Sample.responds 200 (Sample.json_text "{'data':{'markets':{'items':[]}}}"))
             (Normal tt) Sample.second_call_reverts)
      (graphql_request empty_variables)
    = Normal response
    /\ 200 <= resp_status response <= 299
    /\ JSON_parse
         (Sample.world
            (Sample.responds 200 (Sample.json_text "{'data':{'markets':{'items':[]}}}"))
            (Normal tt) Sample.second_call_reverts)
         text
       = Normal result
    /\ data_markets_items result = Normal (Some (JArr [])).
Proof.
  assert (Hrun :
            fetchMorphoMarketsAPI
              (Sample.world
                 (Sample.responds 200 (Sample.json_text "{'data':{'markets':{'items':[]}}}"))
                 (Normal tt) Sample.second_call_reverts)
              empty_variables []
            = (Normal (JArr []),
               [GraphQLCall (graphql_request empty_variables);
                FileWrite RAW_RESPONSE_FILE
                  (Sample.json_text "{'data':{'markets':{'items':[]}}}")]))
    by (vm_compute; reflexivity).
  destruct (fetcher_returns_only_checked_items _ _ [] _ _ Hrun)
    as (response & text & result & Hfetch & Hstatus & _ & Hparse & Hitems & _).
  exists response, text, result.
  split; [exact Hfetch | split; [exact Hstatus | split; [exact Hparse | exact Hitems]]].
Defined.

(** X21.  What the client sends reaches the GraphQL endpoint through the
    variables only: for every request with an address, the outbound request
    is a [POST] to [MORPHO_API_URL] with the two JSON headers and the query
    document [NEW_MORPHO_MARKETS_QUERY], and it is the same request in every
    world. *)
Theorem outbound_request_is_fixed (w : World) (q : RequestQuery) (address : string)
    (t : Trace) :
  truthy_string (q_loanAssetAddress q) = Some address ->
  exists (req : GraphQLRequest) (rest : Trace),
    snd (get_markets w q t) = (t ++ GraphQLCall req :: rest)%list
    /\ List.filter is_graphql_call rest = []
    /\ url req = "https://api.morpho.org/graphql"
    /\ method req = "POST"
    /\ headers req = [("Content-Type", "application/json"); ("Accept", "application/json")]
    /\ query req = NEW_MORPHO_MARKETS_QUERY
    /\ forall (w' : World) (t' : Trace),
         exists rest' : Trace,
           snd (get_markets w' q t') = (t' ++ GraphQLCall req :: rest')%list.
Proof.
  intros Haddress.
  destruct (route_trace w q address t Haddress) as (rest & Htrace & Hrest).
  exists (graphql_request (route_variables q address)), rest.
  split; [exact Htrace | split; [exact Hrest |]].
  repeat split.
  intros w' t'.
  destruct (route_trace w' q address t' Haddress) as (rest' & Htrace' & _).
  exists rest'. exact Htrace'.
Qed.

Lemma outbound_request_is_fixed_witness :
  exists (req : GraphQLRequest) (rest : Trace),
    snd (get_markets
           (Sample.world Sample.network_down (Normal tt) Sample.second_call_reverts)
           (Sample.query_for Sample.USDC (Some "5")) [])
    = GraphQLCall req :: rest
    /\ url req = "https://api.morpho.org/graphql"
    /\ method req = "POST".
Proof.
  destruct (outbound_request_is_fixed
              (Sample.world Sample.network_down (Normal tt) Sample.second_call_reverts)
              (Sample.query_for Sample.USDC (Some "5")) Sample.USDC [] eq_refl)
    as (req & rest & Htrace & _ & Hurl & Hmethod & _).
  exists req, rest. split; [exact Htrace | split; [exact Hurl | exact Hmethod]].
Defined.
